(** * HeartGuard AI (app.py): a shallow embedding of the inference path

    The Streamlit script [app.py] loads a pickled classifier once per
    process, reads five clinical measurements from range-limited widgets,
    builds one feature row, asks the classifier for a label and (best
    effort) for class probabilities, and renders one of two result cards.

    The embedding keeps the script's shape: Python floats are IEEE-754
    binary64 values ([spec_float] with [prec = 53], [emax = 1024]), Python
    exceptions are values of [exn] carried by an error monad, and the
    script's effects (the cache of [st.cache_resource], the internal state
    of the unpickled object, the elements sent to the page) are threaded
    explicitly. *)

From Stdlib Require Import ZArith List Bool Lia String Ascii.
From Stdlib Require Import DecimalString.
From Stdlib Require Import SpecFloat.
Import ListNotations.

Local Open Scope Z_scope.
Local Open Scope string_scope.

(** ** Numbers *)

Module PyNum.

(** Python [float] and numpy [float64]: IEEE-754 binary64. *)
Definition float := spec_float.
Definition prec : Z := 53.
Definition emax : Z := 1024.

Definition fmul : float -> float -> float := SFmul prec emax.
Definition flt : float -> float -> bool := SFltb.
Definition fle : float -> float -> bool := SFleb.
Definition valid : float -> bool := valid_binary prec emax.

Definition is_nan (f : float) : bool :=
  match f with S754_nan => true | _ => false end.

(** The binary64 value of an integer literal ([float(z)]). *)
Definition of_Z (z : Z) : float := binary_normalize prec emax z 0 false.

Definition f0 : float := S754_zero false.
Definition f1 : float := Eval vm_compute in of_Z 1.
Definition f100 : float := Eval vm_compute in of_Z 100.

(** A Python number as the script handles them: an [int] (widget codes,
    the literal [0] of the [except] branch) or a [float]. *)
Inductive pynum :=
  | PyInt (z : Z)
  | PyFloat (f : float).

(** [x > 0] on a Python number; any comparison with NaN is False. *)
Definition gt0 (x : pynum) : bool :=
  match x with
  | PyInt z => (0 <? z)%Z
  | PyFloat f => flt f0 f
  end.

(** *** Fixed-point formatting, [format(x, '.2f')]

    Python prints the decimal nearest to the exact binary value, ties to
    even. [m * 2^e * 100] is rounded to an integer number of hundredths. *)

Definition round_half_even (n d : Z) : Z :=
  let q := n / d in
  let r := n mod d in
  match (2 * r ?= d) with
  | Lt => q
  | Gt => q + 1
  | Eq => if Z.even q then q else q + 1
  end.

Definition hundredths (m : positive) (e : Z) : Z :=
  if (0 <=? e)%Z then Zpos m * 2 ^ e * 100
  else round_half_even (Zpos m * 100) (2 ^ (- e)).

Definition dec (z : Z) : string := NilZero.string_of_uint (N.to_uint (Z.to_N z)).

Definition two_digits (z : Z) : string :=
  if (z <? 10)%Z then "0" ++ dec z else dec z.

Definition fixed2 (neg : bool) (h : Z) : string :=
  (if neg then "-" else "") ++ dec (h / 100) ++ "." ++ two_digits (h mod 100).

Definition format_2f (x : pynum) : string :=
  match x with
  | PyInt z => fixed2 (z <? 0)%Z (Z.abs z * 100)
  | PyFloat S754_nan => "nan"
  | PyFloat (S754_infinity s) => if s then "-inf" else "inf"
  | PyFloat (S754_zero s) => fixed2 s 0
  | PyFloat (S754_finite s m e) => fixed2 s (hundredths m e)
  end.

End PyNum.

(** ** Exceptions, page elements and the trace of a script run *)

Module Py.

(** The exception classes that can reach the script's handlers. [Other]
    stands for any further class (none of them is a subclass of
    [FileNotFoundError]). *)
Inductive exn :=
  | FileNotFoundError
  | PermissionError
  | UnpicklingError
  | EOFError
  | AttributeError
  | IndexError
  | ValueError
  | Other (name : string).

(** [isinstance(e, FileNotFoundError)], the test of the loader's handler. *)
Definition is_FileNotFoundError (e : exn) : bool :=
  match e with FileNotFoundError => true | _ => false end.

Inductive outcome (A : Type) :=
  | Ok (a : A)
  | Raise (e : exn).
Arguments Ok {A} a.
Arguments Raise {A} e.

End Py.
Export Py.
Import PyNum.
Local Open Scope list_scope.

(** [input_data]: a list holding one row of numbers. *)
Definition features := list (list pynum).
(** A class label, an element of the array returned by [predict]. *)
Definition label := Z.
(** The array returned by [predict_proba], row-major. *)
Definition ndarray := list (list float).

(** What the script sends to the page. The long HTML and CSS literals are
    kept as constructors; the two texts that carry data are strings. *)
Inductive element :=
  | PageConfig
  | Css
  | StError (msg : string)
  | Sidebar
  | MainHeader
  | SubHeader
  | InputContainerOpen
  | VitalsHeading
  | Selectbox (name : string) (options : list Z)
  | Slider (name : string) (lo hi : Z)
  | NumberInput (name : string) (lo hi : float)
  | InputContainerClose
  | Button (name : string)
  | Progress (percent : Z)
  | ProgressEmpty
  | Rule
  | DangerCard
  | SafeCard
  | Balloons
  | StWrite (text : string)
  | StInfo (text : string).

(** One observable step of a run: a file access, the construction of the
    feature row, a call into the classifier, or an element shown. *)
Inductive event :=
  | Open (path : string)
  | Unpickle
  | Encode (x : features)
  | Predict (x : features)
  | PredictProba (x : features)
  | Show (el : element).

Definition is_file_access (ev : event) : bool :=
  match ev with Open _ | Unpickle => true | _ => false end.

Definition is_inference (ev : event) : bool :=
  match ev with Encode _ | Predict _ | PredictProba _ => true | _ => false end.

(** The elements of a trace, in order, without the calls. *)
Fixpoint shown (t : list event) : list element :=
  match t with
  | [] => []
  | Show el :: t' => el :: shown t'
  | _ :: t' => shown t'
  end.

(** ** The script monad: state, exceptions and a trace

    A statement runs in a state, may raise, and appends to the trace.
    State changes and elements already shown survive a raise, as in
    Python. *)

Module Script.

Definition M (St A : Type) : Type := St -> outcome A * St * list event.

Definition ret {St A} (a : A) : M St A := fun s => (Ok a, s, []).

Definition bind {St A B} (m : M St A) (k : A -> M St B) : M St B :=
  fun s =>
    match m s with
    | (Ok a, s1, t1) =>
        let '(r, s2, t2) := k a s1 in (r, s2, t1 ++ t2)
    | (Raise e, s1, t1) => (Raise e, s1, t1)
    end.

Definition raise {St A} (e : exn) : M St A := fun s => (Raise e, s, []).

Definition emit {St} (ev : event) : M St unit := fun s => (Ok tt, s, [ev]).

Definition show {St} (el : element) : M St unit := emit (Show el).

(** [try: m  except <classes>: h]. The handler returns [None] for an
    exception it does not match, which then propagates. *)
Definition try_except {St A} (m : M St A) (h : exn -> option (M St A)) : M St A :=
  fun s =>
    match m s with
    | (Ok a, s1, t1) => (Ok a, s1, t1)
    | (Raise e, s1, t1) =>
        match h e with
        | Some k => let '(r, s2, t2) := k s1 in (r, s2, t1 ++ t2)
        | None => (Raise e, s1, t1)
        end
    end.

(** Lifting a pure, fallible computation. *)
Definition lift {St A} (r : outcome A) : M St A := fun s => (r, s, []).

Definition result_of {St A} (x : outcome A * St * list event) : outcome A := fst (fst x).
Definition state_of {St A} (x : outcome A * St * list event) : St := snd (fst x).
Definition trace_of {St A} (x : outcome A * St * list event) : list event := snd x.

End Script.
Import Script.

Declare Scope script_scope.
Delimit Scope script_scope with script.
Notation "x <- m ;; k" := (bind m (fun x => k))
  (at level 61, m at next level, right associativity) : script_scope.
Notation "m ;;; k" := (bind m (fun _ => k))
  (at level 61, right associativity) : script_scope.
Local Open Scope script_scope.

(** ** The program *)

Section App.

(** The internal state of the unpickled object. The artifact is opaque:
    its methods may read and change this state. *)
Context {Internal : Type}.

(** The object stored in [heart_disease_model.pkl], as far as the script
    uses it: its truth value in [if model:], [predict], and [predict_proba]
    when the class has one. *)
Record classifier := {
  truthy : bool;
  predict : Internal -> features -> outcome (list label) * Internal;
  predict_proba : option (Internal -> features -> outcome ndarray * Internal)
}.

Record object := { cls : classifier; self : Internal }.

(** The artifact as [open] and [pickle.load] find it. *)
Inductive artifact :=
  | Absent
  | Unopenable (e : exn)
  | Corrupt (e : exn)
  | Pickled (o : object).

(** *** 3. Load model *)

(** The entry [st.cache_resource] keeps for the argument-less
    [load_model]: the returned value and the elements the body showed,
    which are replayed on a hit. A body that raises stores nothing. *)
Record process := { cache : option (option object * list element) }.

Definition fresh : process := {| cache := None |}.

Definition model_path : string := "heart_disease_model.pkl".

(** The text of the loader's [st.error], without its leading warning sign. *)
Definition not_found_msg : string :=
  "Model file not found. Please run the training script first.".

(** [with open(path, 'rb') as file: model = pickle.load(file)] *)
Definition open_and_unpickle (fs : artifact) : M process object :=
  emit (Open model_path) ;;;
  match fs with
  | Absent => raise FileNotFoundError
  | Unopenable e => raise e
  | Corrupt e => emit Unpickle ;;; raise e
  | Pickled o => emit Unpickle ;;; ret o
  end.

(** The undecorated body of [load_model]. *)
Definition load_model_body (fs : artifact) : M process (option object) :=
  try_except
    (model <- open_and_unpickle fs ;; ret (Some model))
    (fun e =>
       if is_FileNotFoundError e
       then Some (show (StError not_found_msg) ;;; ret None)
       else None).

(** [@st.cache_resource]: a hit returns the stored value and replays the
    stored elements without running the body; a miss runs the body and
    stores what it returned, [None] included. *)
Definition cache_resource (body : M process (option object)) : M process (option object) :=
  fun p =>
    match cache p with
    | Some (v, els) => (Ok v, p, map Show els)
    | None =>
        match body p with
        | (Ok v, _, t) => (Ok v, {| cache := Some (v, shown t) |}, t)
        | (Raise e, p1, t) => (Raise e, p1, t)
        end
    end.

Definition load_model (fs : artifact) : M process (option object) :=
  cache_resource (load_model_body fs).

(** The cached object is shared: what a method call does to it stays in
    the cache for later runs. *)
Definition store (s' : Internal) (p : process) : process :=
  match cache p with
  | Some (Some o, els) => {| cache := Some (Some {| cls := cls o; self := s' |}, els) |}
  | _ => p
  end.

Definition with_model {A} (o : object) (m : M Internal A) : M process A :=
  fun p => let '(r, s', t) := m (self o) in (r, store s' p, t).

(** *** 5. Main interface: the form *)

Definition cp_options : list (Z * string) :=
  [ (0, "Typical Angina (0)"); (1, "Atypical Angina (1)");
    (2, "Non-anginal Pain (2)"); (3, "Asymptomatic (3)") ].

Definition thal_options : list (Z * string) :=
  [ (1, "Fixed Defect (1)"); (2, "Normal (2)"); (3, "Reversable Defect (3)") ].

Definition ca_options : list Z := [0; 1; 2; 3; 4].

(** [list(d.keys())] *)
Definition keys (d : list (Z * string)) : list Z := map fst d.

Definition thalach_min : Z := 60.
Definition thalach_max : Z := 220.
Definition oldpeak_min : float := f0.
Definition oldpeak_max : float := Eval vm_compute in of_Z 10.

(** What the five widgets return in one run, and whether the button was
    pressed. A selectbox returns the chosen option itself (the key, not
    its display text). *)
Record ClinicalInput := {
  cp_display : Z;
  thalach : Z;
  oldpeak : float;
  thal_display : Z;
  ca : Z
}.

Record session := { fields : ClinicalInput; clicked : bool }.

Definition member (z : Z) (l : list Z) : bool := existsb (Z.eqb z) l.

(** The ranges the widgets enforce. *)
Definition valid_input (i : ClinicalInput) : bool :=
  member (cp_display i) (keys cp_options)
  && (thalach_min <=? thalach i)%Z && (thalach i <=? thalach_max)%Z
  && valid (oldpeak i) && fle oldpeak_min (oldpeak i) && fle (oldpeak i) oldpeak_max
  && member (thal_display i) (keys thal_options)
  && member (ca i) ca_options.

Definition form : M process unit :=
  show InputContainerOpen ;;;
  show VitalsHeading ;;;
  show (Selectbox "Chest Pain Type (CP)" (keys cp_options)) ;;;
  show (Slider "Max Heart Rate (Thalach)" thalach_min thalach_max) ;;;
  show (NumberInput "ST Depression (Oldpeak)" oldpeak_min oldpeak_max) ;;;
  show (Selectbox "Thalassemia (Thal)" (keys thal_options)) ;;;
  show (Selectbox "Number of Major Vessels (CA)" ca_options) ;;;
  show InputContainerClose ;;;
  show (Button "Analyze Risk Profile").

(** *** Prediction section *)

(** The cosmetic progress bar: [st.progress(0)], then 1..100, then
    [empty()]. The sleeps are not modelled. *)
Definition progress_events : list event :=
  Show (Progress 0)
    :: map (fun percent_complete => Show (Progress (Z.of_nat percent_complete + 1))) (seq 0 100)
    ++ [Show ProgressEmpty].

Definition progress_bar {St} : M St unit :=
  fun s => (Ok tt, s, progress_events).

(** [input_data = [[cp_display, thal_display, ca, thalach, oldpeak]]] *)
Definition input_data (i : ClinicalInput) : features :=
  [[ PyInt (cp_display i); PyInt (thal_display i); PyInt (ca i);
     PyInt (thalach i); PyFloat (oldpeak i) ]].

Definition call_predict (c : classifier) (x : features) : M Internal (list label) :=
  fun s => let '(r, s') := predict c s x in (r, s', [Predict x]).

(** [model.predict_proba(x)]: the attribute lookup fails when the class
    has no such method. *)
Definition call_predict_proba (c : classifier) (x : features) : M Internal ndarray :=
  match predict_proba c with
  | None => raise AttributeError
  | Some f => fun s => let '(r, s') := f s x in (r, s', [PredictProba x])
  end.

(** [prediction[0]] *)
Definition first (prediction : list label) : outcome label :=
  match prediction with
  | [] => Raise IndexError
  | l :: _ => Ok l
  end.

(** numpy's [maximum]: NaN propagates. *)
Definition maximum (a b : float) : float :=
  if is_nan a || fle b a then a else b.

(** [np.max(a)] over all elements; an empty array has no maximum. *)
Definition np_max (a : ndarray) : outcome float :=
  match List.concat a with
  | [] => Raise ValueError
  | y :: ys => Ok (fold_left maximum ys y)
  end.

(** The body of the [try]: [np.max(model.predict_proba(x)) * 100]. *)
Definition estimate (c : classifier) (x : features) : M Internal pynum :=
  proba <- call_predict_proba c x ;;
  m <- lift (np_max proba) ;;
  ret (PyFloat (fmul m f100)).

(** [try: ... except: confidence = 0] *)
Definition confidence_of (c : classifier) (x : features) : M Internal pynum :=
  try_except (estimate c x) (fun _ => Some (ret (PyInt 0))).

(** [prediction = model.predict(x); result = prediction[0]] *)
Definition classify (c : classifier) (x : features) : M Internal label :=
  prediction <- call_predict c x ;;
  lift (first prediction).

(** The Inference Engine: label, then best-effort confidence. *)
Definition infer (c : classifier) (x : features) : M Internal (label * pynum) :=
  result <- classify c x ;;
  confidence <- confidence_of c x ;;
  ret (result, confidence).

Definition confidence_text (confidence : pynum) : string :=
  ("**Model Confidence:** " ++ format_2f confidence ++ "%")%string.

(** [if confidence > 0: st.write(...)] *)
Definition confidence_line {St} (confidence : pynum) : M St unit :=
  if gt0 confidence then show (StWrite (confidence_text confidence)) else ret tt.

(** The Presentation Layer: [if result == 1: ... else: ...]. *)
Definition render {St} (result : label) (confidence : pynum) : M St unit :=
  show Rule ;;;
  if (result =? 1)%Z then
    show DangerCard ;;;
    confidence_line confidence
  else
    show SafeCard ;;;
    show Balloons ;;;
    confidence_line confidence.

(** The body of [if st.button("Analyze Risk Profile"):]. *)
Definition analyze (c : classifier) (i : ClinicalInput) : M Internal unit :=
  progress_bar ;;;
  emit (Encode (input_data i)) ;;;
  rc <- infer c (input_data i) ;;
  render (fst rc) (snd rc).

Definition awaiting : element := StInfo "Awaiting model file...".

(** One run of the script, top to bottom. [if model:] is false for [None]
    and otherwise the truth value of the object. *)
Definition script (fs : artifact) (ses : session) : M process unit :=
  show PageConfig ;;;
  show Css ;;;
  model <- load_model fs ;;
  show Sidebar ;;;
  show MainHeader ;;;
  show SubHeader ;;;
  match model with
  | Some o =>
      if truthy (cls o) then
        form ;;;
        if clicked ses then with_model o (analyze (cls o) (fields ses)) else ret tt
      else show awaiting
  | None => show awaiting
  end.

(** Requests served one after the other by the same process. *)
Fixpoint serve (reqs : list (artifact * session)) (p : process) : process * list event :=
  match reqs with
  | [] => (p, [])
  | (fs, ses) :: rest =>
      let r := script fs ses p in
      let '(p', t) := serve rest (state_of r) in
      (p', trace_of r ++ t)
  end.

(** *** Vocabulary of the properties *)

(** The classifier held by the cache, if the loader has returned. *)
Definition cached (p : process) : option (option classifier) :=
  match cache p with
  | Some (v, _) => Some (option_map cls v)
  | None => None
  end.

(** A classifier whose [predict] leaves the object as it found it. *)
Definition immutable (c : classifier) : Prop :=
  forall s x, snd (predict c s x) = s.

(** A run reports a failure when it raises or shows an error element. *)
Definition is_error (el : element) : bool :=
  match el with StError _ => true | _ => false end.

Definition reports_failure {St A} (r : outcome A * St * list event) : bool :=
  match result_of r with
  | Raise _ => true
  | Ok _ => existsb is_error (shown (trace_of r))
  end.

(** A run in which no event of the kind [f] occurs. *)
Definition silent {St A} (f : event -> bool) (r : outcome A * St * list event) : Prop :=
  filter f (trace_of r) = [].

(** A run all of whose events satisfy [P]. *)
Definition only {St A} (P : event -> Prop) (r : outcome A * St * list event) : Prop :=
  Forall P (trace_of r).

(** An inference event about the feature row [x], or any other event. *)
Definition about (x : features) (ev : event) : Prop :=
  match ev with
  | Encode y | Predict y | PredictProba y => y = x
  | _ => True
  end.

(** The ways the probability estimate can fail from object state [s],
    with the state the object is left in: no such method, a call that
    raises, or a returned array without a maximum. *)
Inductive proba_unavailable (c : classifier) (x : features) (s : Internal)
  : Internal -> list event -> Prop :=
  | Unsupported :
      predict_proba c = None ->
      proba_unavailable c x s s []
  | CallRaises g e s' :
      predict_proba c = Some g -> g s x = (Raise e, s') ->
      proba_unavailable c x s s' [PredictProba x]
  | NoMaximum g a e s' :
      predict_proba c = Some g -> g s x = (Ok a, s') -> np_max a = Raise e ->
      proba_unavailable c x s s' [PredictProba x].

(** The card of a label, as [render] chooses it. *)
Definition card (l : label) : list element :=
  if (l =? 1)%Z then [DangerCard] else [SafeCard; Balloons].

(** What [predict_proba] returns when it is a distribution: at least one
    entry, every entry a binary64 number between 0 and 1. *)
Definition probability (y : float) : Prop :=
  valid y = true /\ fle f0 y = true /\ fle y f1 = true.

Definition distribution (a : ndarray) : Prop :=
  List.concat a <> [] /\ Forall probability (List.concat a).

Definition is_confidence_line (el : element) : bool :=
  match el with StWrite _ => true | _ => false end.

End App.

Arguments classifier : clear implicits.
Arguments object : clear implicits.
Arguments artifact : clear implicits.
Arguments process : clear implicits.
Arguments progress_events : simpl never.

(** ** Concrete artifacts for the scenarios *)

Module Scenario.

(** Binary64 values of the decimal literals used below. *)
Definition fdiv (a b : Z) : float := SFdiv prec emax (of_Z a) (of_Z b).
Definition p_0_875 : float := Eval vm_compute in fdiv 7 8.
Definition p_0_125 : float := Eval vm_compute in fdiv 1 8.
Definition f_4_2 : float := Eval vm_compute in fdiv 42 10.
Definition f_87_5 : float := Eval vm_compute in fdiv 175 2.

(** The internal state counts the probability queries the object has
    answered; [predict] does not touch it. *)
Definition healthy : classifier nat :=
  {| truthy := true;
     predict := fun s _ => (Ok [0%Z], s);
     predict_proba := Some (fun s _ => (Ok [[p_0_875; p_0_125]], Datatypes.S s)) |}.

(** Label 1, and a probability call that raises. *)
Definition at_risk_failing_proba : classifier nat :=
  {| truthy := true;
     predict := fun s _ => (Ok [1%Z], s);
     predict_proba := Some (fun s _ => (Raise (Other "RuntimeError"), Datatypes.S s)) |}.

(** A three-class model: a well-formed pickle whose labels are 0, 1, 2. *)
Definition three_class : classifier nat :=
  {| truthy := true;
     predict := fun s _ => (Ok [2%Z], s);
     predict_proba := None |}.

Definition scenario_A : ClinicalInput :=
  {| cp_display := 0; thal_display := 2; ca := 0; thalach := 150; oldpeak := f1 |}.

Definition scenario_B : ClinicalInput :=
  {| cp_display := 3; thal_display := 1; ca := 3; thalach := 90; oldpeak := f_4_2 |}.

End Scenario.

(** ** Vocabulary of the further properties *)

Section Further.

Context {Internal : Type}.

(** The elements of the form, in the order the script creates them. *)
Definition form_elements : list element :=
  [ InputContainerOpen; VitalsHeading;
    Selectbox "Chest Pain Type (CP)" (keys cp_options);
    Slider "Max Heart Rate (Thalach)" thalach_min thalach_max;
    NumberInput "ST Depression (Oldpeak)" oldpeak_min oldpeak_max;
    Selectbox "Thalassemia (Thal)" (keys thal_options);
    Selectbox "Number of Major Vessels (CA)" ca_options;
    InputContainerClose; Button "Analyze Risk Profile" ].

(** What every run shows around the loader. *)
Definition page_top : list event := [Show PageConfig; Show Css].
Definition page_head : list event := [Show Sidebar; Show MainHeader; Show SubHeader].

(** A classifier none of whose two methods changes the object. *)
Definition stateless (c : classifier Internal) : Prop :=
  immutable c
  /\ forall g, predict_proba c = Some g -> forall s x, snd (g s x) = s.

(** An artifact on which the loader raises: [open] or [pickle.load] fails
    with an exception that is not a [FileNotFoundError]. *)
Definition load_failure (fs : artifact Internal) : option exn :=
  match fs with
  | Unopenable e | Corrupt e => if is_FileNotFoundError e then None else Some e
  | Absent | Pickled _ => None
  end.

Definition is_open (ev : event) : bool :=
  match ev with Open _ => true | _ => false end.

(** [st.progress] accepts an integer from 0 to 100. *)
Definition percent_in_range (ev : event) : Prop :=
  match ev with
  | Show (Progress percent) => (0 <= percent <= 100)%Z
  | _ => True
  end.

(** Whether the script gets as far as asking for probabilities: [predict]
    returned at least one label and the class has [predict_proba]. *)
Definition asks_proba (c : classifier Internal) (x : features) (s : Internal) : bool :=
  match fst (predict c s x), predict_proba c with
  | Ok (_ :: _), Some _ => true
  | _, _ => false
  end.

End Further.

(** ** Further artifacts *)

Module Cases.

(** An object that is false in a condition, such as an empty container
    pickled in place of a model. *)
Definition falsy : classifier nat :=
  {| truthy := false;
     predict := fun s _ => (Ok [0%Z], s);
     predict_proba := None |}.

(** A model whose [predict] raises, after counting the call. *)
Definition failing_predict : classifier nat :=
  {| truthy := true;
     predict := fun s _ => (Raise ValueError, Datatypes.S s);
     predict_proba := None |}.

(** A model whose probabilities contain a NaN. *)
Definition nan_proba : classifier nat :=
  {| truthy := true;
     predict := fun s _ => (Ok [1%Z], s);
     predict_proba := Some (fun s _ => (Ok [[Scenario.p_0_125; S754_nan]], s)) |}.

(** A model that keeps no state across calls. *)
Definition steady : classifier nat :=
  {| truthy := true;
     predict := fun s _ => (Ok [1%Z], s);
     predict_proba := Some (fun s _ => (Ok [[Scenario.p_0_125; Scenario.p_0_875]], s)) |}.

Definition pressed : session := {| fields := Scenario.scenario_B; clicked := true |}.
Definition idle : session := {| fields := Scenario.scenario_B; clicked := false |}.

End Cases.

(** ** Properties *)

(** *** Binary64 arithmetic

    Facts about the rounding of [SpecFloat] that the confidence
    computation needs: digits, right shifts, the shape of a rounded
    product, and the order. *)

Section Binary64.

Local Open Scope Z_scope.

Ltac compare_cases :=
  repeat match goal with
  | H : context [Pos.compare_cont Eq ?a ?b] |- _ =>
      change (Pos.compare_cont Eq a b) with (Pos.compare a b) in H
  | |- context [Pos.compare_cont Eq ?a ?b] =>
      change (Pos.compare_cont Eq a b) with (Pos.compare a b)
  | H : context [Z.compare ?a ?b] |- _ => destruct (Z.compare_spec a b)
  | |- context [Z.compare ?a ?b] => destruct (Z.compare_spec a b)
  | H : context [Pos.compare ?a ?b] |- _ => destruct (Pos.compare_spec a b)
  | |- context [Pos.compare ?a ?b] => destruct (Pos.compare_spec a b)
  end.

Ltac float_cases x :=
  let s := fresh "s" in
  destruct x as [s | s | | s ? ?]; try destruct s.

Lemma digits2_pos_size (p : positive) : digits2_pos p = Pos.size p.
Proof. induction p; simpl; congruence. Qed.

Lemma digits2_pos_bounds (p : positive) :
  2 ^ (Zpos (digits2_pos p) - 1) <= Zpos p < 2 ^ Zpos (digits2_pos p).
Proof.
  rewrite digits2_pos_size. split.
  - pose proof (Pos.size_le p) as H.
    apply Pos2Z.pos_le_pos in H. rewrite Pos2Z.inj_pow in H.
    assert (E : 2 ^ Zpos (Pos.size p) = 2 * 2 ^ (Zpos (Pos.size p) - 1)).
    { rewrite <- Z.pow_succ_r by lia. f_equal. lia. }
    rewrite E in H. lia.
  - pose proof (Pos.size_gt p) as H.
    apply Pos2Z.pos_lt_pos in H. rewrite Pos2Z.inj_pow in H. exact H.
Qed.

(** The number of binary digits is determined by the two powers around. *)
Lemma digits2_pos_unique (p : positive) (k : Z) :
  2 ^ (k - 1) <= Zpos p < 2 ^ k -> Zpos (digits2_pos p) = k.
Proof.
  intros [L U]. pose proof (digits2_pos_bounds p) as [L' U'].
  assert (0 < k).
  { destruct (Z_lt_le_dec 0 k); auto.
    assert (2 ^ k <= 2 ^ 0) by (destruct (Z_lt_le_dec k 0);
      [rewrite Z.pow_neg_r by lia; simpl; lia | apply Z.pow_le_mono_r; lia]).
    simpl in *. lia. }
  assert (Zpos (digits2_pos p) - 1 < k).
  { apply (Z.pow_lt_mono_r_iff 2); lia. }
  assert (k - 1 < Zpos (digits2_pos p)).
  { apply (Z.pow_lt_mono_r_iff 2); lia. }
  lia.
Qed.

Lemma shr_1_half (r : shr_record) :
  0 <= shr_m r -> shr_m (shr_1 r) = shr_m r / 2.
Proof.
  destruct r as [m b s]. simpl. intros H.
  destruct m as [ | [p | p | ] | p]; cbn [shr_m]; try lia; try reflexivity.
  - apply Z.div_unique with (r := 1); lia.
  - apply Z.div_unique with (r := 0); lia.
Qed.

Lemma iter_pos_shr_1 (p : positive) : forall r,
  0 <= shr_m r -> shr_m (iter_pos shr_1 p r) = shr_m r / 2 ^ Zpos p.
Proof.
  assert (P2 : forall q : positive, 0 < 2 ^ Zpos q) by (intros; apply Z.pow_pos_nonneg; lia).
  induction p as [p IH | p IH | ]; intros r H; cbn [iter_pos].
  - assert (H1 : 0 <= shr_m (shr_1 r)) by (rewrite shr_1_half by auto; apply Z.div_pos; lia).
    assert (H2 : 0 <= shr_m (iter_pos shr_1 p (shr_1 r))).
    { rewrite IH by auto. apply Z.div_pos; auto. }
    rewrite IH, IH, shr_1_half by auto.
    rewrite !Z.div_div by (specialize (P2 p); lia).
    f_equal. replace (Zpos p~1) with (1 + Zpos p + Zpos p) by lia.
    rewrite !Z.pow_add_r by lia. change (2 ^ 1) with 2. lia.
  - assert (H2 : 0 <= shr_m (iter_pos shr_1 p r)).
    { rewrite IH by auto. apply Z.div_pos; auto. }
    rewrite IH, IH by auto.
    rewrite !Z.div_div by (specialize (P2 p); lia).
    f_equal. replace (Zpos p~0) with (Zpos p + Zpos p) by lia.
    rewrite !Z.pow_add_r by lia. lia.
  - rewrite shr_1_half by auto. reflexivity.
Qed.

(** Shifting right by [n] places divides the mantissa by [2 ^ n]. *)
Lemma shr_spec (r : shr_record) (e n : Z) :
  0 <= shr_m r -> 0 <= n ->
  shr_m (fst (shr r e n)) = shr_m r / 2 ^ n /\ snd (shr r e n) = e + n.
Proof.
  intros H Hn. destruct n as [ | p | p]; simpl; try lia.
  - rewrite Z.div_1_r. split; [reflexivity | lia].
  - split; [apply iter_pos_shr_1; auto | reflexivity].
Qed.

Lemma shr_id (r : shr_record) (e n : Z) : n <= 0 -> shr r e n = (r, e).
Proof. destruct n; simpl; auto; lia. Qed.

Lemma round_nearest_even_range (m : Z) (l : location) :
  m <= round_nearest_even m l <= m + 1.
Proof.
  destruct l as [ | [ | | ]]; simpl; try lia. destruct (Z.even m); lia.
Qed.

Lemma fexp_binary64 (x : Z) : fexp prec emax x = Z.max (x - 53) (-1074).
Proof. reflexivity. Qed.

Lemma Zdigits2_small (m : Z) (k : Z) :
  0 <= k -> 0 <= m < 2 ^ k -> Zdigits2 m <= k.
Proof.
  intros Hk [L U]. destruct m as [ | p | p]; simpl; try lia.
  pose proof (digits2_pos_bounds p) as [L' _].
  assert (Zpos (digits2_pos p) - 1 < k) by (apply (Z.pow_lt_mono_r_iff 2); lia).
  lia.
Qed.

(** The second alignment of [binary_round_aux]: a mantissa that fits is
    left alone, and [2 ^ 53] is renormalised to [2 ^ 52]. *)
Lemma shr_fexp_renormalise (m1 e1 : Z) :
  0 <= m1 <= 2 ^ 53 -> -1074 <= e1 ->
  let r := shr_fexp prec emax m1 e1 loc_Exact in
  (m1 < 2 ^ 53 /\ shr_m (fst r) = m1 /\ snd r = e1)
  \/ (m1 = 2 ^ 53 /\ shr_m (fst r) = 2 ^ 52 /\ snd r = e1 + 1).
Proof.
  intros [L U] He. cbv zeta. unfold shr_fexp. rewrite fexp_binary64.
  destruct (Z_lt_le_dec m1 (2 ^ 53)) as [Lt | Ge].
  - left. split; [exact Lt | ].
    pose proof (Zdigits2_small m1 53 ltac:(lia) (conj L Lt)) as D.
    rewrite shr_id by lia. cbn. auto.
  - right. assert (m1 = 2 ^ 53) by lia. subst m1. split; [reflexivity | ].
    change (Zdigits2 (2 ^ 53)) with 54.
    replace (Z.max (54 + e1 - 53) (-1074) - e1) with 1 by lia.
    cbn. split; [reflexivity | lia].
Qed.

(** Rounding a positive exact product: the mantissa is the quotient by the
    shift, or one more, and the result is zero, finite and positive, or an
    overflow. *)
Lemma binary_round_aux_positive (M : positive) (E n : Z) :
  n = fexp prec emax (Zpos (digits2_pos M) + E) - E -> 0 <= n ->
  exists m1,
    Zpos M / 2 ^ n <= m1 <= Zpos M / 2 ^ n + 1
    /\ Zpos M / 2 ^ n < 2 ^ 53
    /\ ((m1 = 0 /\ binary_round_aux prec emax false (Zpos M) E loc_Exact = S754_zero false)
        \/ (0 < m1 < 2 ^ 53
            /\ binary_round_aux prec emax false (Zpos M) E loc_Exact =
               if E + n <=? 971 then S754_finite false (Z.to_pos m1) (E + n)
               else S754_infinity false)
        \/ (m1 = 2 ^ 53
            /\ binary_round_aux prec emax false (Zpos M) E loc_Exact =
               if E + n + 1 <=? 971 then S754_finite false (2 ^ 52)%positive (E + n + 1)
               else S754_infinity false)).
Proof.
  intros Hn Hpos.
  pose proof (digits2_pos_bounds M) as [_ UM].
  assert (P : 0 < 2 ^ n) by (apply Z.pow_pos_nonneg; lia).
  assert (Q : Zpos M / 2 ^ n < 2 ^ 53).
  { apply Z.div_lt_upper_bound; [exact P | ].
    rewrite <- Z.pow_add_r by lia.
    apply Z.lt_le_trans with (1 := UM). apply Z.pow_le_mono_r; [lia | ].
    rewrite fexp_binary64 in Hn. lia. }
  assert (Q0 : 0 <= Zpos M / 2 ^ n) by (apply Z.div_pos; lia).
  unfold binary_round_aux.
  assert (S1 : shr_fexp prec emax (Zpos M) E loc_Exact
               = shr (Build_shr_record (Zpos M) false false) E n).
  { unfold shr_fexp. cbn [Zdigits2 shr_record_of_loc]. rewrite Hn. reflexivity. }
  rewrite S1.
  destruct (shr_spec (Build_shr_record (Zpos M) false false) E n) as [Hm He];
    [cbn; lia | exact Hpos | ].
  destruct (shr (Build_shr_record (Zpos M) false false) E n) as [mrs' e'].
  cbn [fst snd shr_m] in Hm, He. subst e'.
  set (m1 := round_nearest_even (shr_m mrs') (loc_of_shr_record mrs')).
  pose proof (round_nearest_even_range (shr_m mrs') (loc_of_shr_record mrs')) as R.
  fold m1 in R. rewrite Hm in R.
  exists m1. split; [exact R | ]. split; [exact Q | ].
  assert (He' : -1074 <= E + n) by (rewrite fexp_binary64 in Hn; lia).
  destruct (shr_fexp_renormalise m1 (E + n) ltac:(lia) He') as [[Lt [Hm2 He2]] | [Eq [Hm2 He2]]];
    destruct (shr_fexp prec emax m1 (E + n) loc_Exact) as [mrs'' e''];
    cbn [fst snd] in Hm2, He2; subst e''; rewrite Hm2.
  - destruct m1 as [ | p | p] eqn:Em; [left; auto | | lia].
    right; left. split; [lia | ]. reflexivity.
  - right; right. split; [exact Eq | ]. reflexivity.
Qed.

(** Comparison of two positive finite numbers: exponents first. *)
Lemma fle_finite_pos (m1 m2 : positive) (e1 e2 : Z) :
  fle (S754_finite false m1 e1) (S754_finite false m2 e2) = true
  <-> e1 < e2 \/ (e1 = e2 /\ Zpos m1 <= Zpos m2).
Proof.
  unfold fle, SFleb, SFcompare.
  change (Pos.compare_cont Eq m1 m2) with (Pos.compare m1 m2).
  destruct (Z.compare_spec e1 e2) as [E | L | G].
  - destruct (Pos.compare_spec m1 m2) as [E' | L' | G']; split; intros H;
      try discriminate; try reflexivity; lia.
  - split; intros; [lia | reflexivity].
  - split; intros H; [discriminate | lia].
Qed.

(** The shape of a probability: a zero, or a positive finite number of
    the format that is at most one. *)
Lemma probability_shape (y : float) :
  probability y ->
  (exists s, y = S754_zero s)
  \/ (exists m e, y = S754_finite false m e
        /\ bounded prec emax m e = true
        /\ (e < -52 \/ (e = -52 /\ Zpos m <= 2 ^ 52))).
Proof.
  intros [V [L U]]. destruct y as [s | s | | s m e].
  - left. exists s. reflexivity.
  - destruct s; discriminate.
  - discriminate.
  - destruct s; [discriminate | ].
    right. exists m, e. split; [reflexivity | ]. split; [exact V | ].
    apply fle_finite_pos in U. exact U.
Qed.

Lemma bounded_binary64 (m : positive) (e : Z) :
  bounded prec emax m e = true ->
  Zpos (digits2_pos m) <= 53 /\ -1074 <= e <= 971
  /\ (Zpos (digits2_pos m) = 53 \/ e = -1074).
Proof.
  unfold bounded, canonical_mantissa. rewrite fexp_binary64.
  intros H. apply andb_prop in H. destruct H as [C B].
  apply Z.eqb_eq in C. apply Z.leb_le in B. change (emax - prec) with 971 in B. lia.
Qed.

(** A probability times 100 stays between 0 and 100 in binary64. *)
Lemma fmul_100_bounds (y : float) :
  probability y ->
  fle f0 (fmul y f100) = true /\ fle (fmul y f100) f100 = true.
Proof.
  intros Hy. destruct (probability_shape y Hy) as [[s ->] | [m [e [-> [Hb Hle]]]]].
  - destruct s; split; reflexivity.
  - destruct (bounded_binary64 m e Hb) as [Dm [He Hc]].
    pose proof (digits2_pos_bounds m) as [Lm Um].
    destruct Hle as [Hlt | [-> Hm]].
    2:{ assert (Zpos (digits2_pos m) = 53) by lia.
        replace (Zpos (digits2_pos m) - 1) with 52 in Lm by lia.
        assert (E : m = (2 ^ 52)%positive) by lia. subst m.
        split; vm_compute; reflexivity. }
    change (fmul (S754_finite false m e) f100)
      with (binary_round_aux prec emax false (Zpos (m * 7036874417766400)) (e + -46) loc_Exact).
    set (M := (m * 7036874417766400)%positive).
    assert (HM : Zpos M = Zpos m * 7036874417766400) by (unfold M; lia).
    pose proof (digits2_pos_bounds M) as [LM UM].
    set (d := Zpos (digits2_pos M)) in *.
    set (dm := Zpos (digits2_pos m)) in *.
    assert (Um53 : Zpos m < 2 ^ 53).
    { apply Z.lt_le_trans with (1 := Um). apply Z.pow_le_mono_r; lia. }
    assert (D1 : 53 <= d).
    { assert (52 < d); [ | lia]. apply (Z.pow_lt_mono_r_iff 2); lia. }
    assert (D2 : d <= dm + 53).
    { assert (d - 1 < dm + 53); [ | lia]. apply (Z.pow_lt_mono_r_iff 2); try lia.
      apply Z.le_lt_trans with (1 := LM).
      rewrite Z.pow_add_r by lia. change (2 ^ 53) with 9007199254740992. nia. }
    set (n := fexp prec emax (d + (e + -46)) - (e + -46)).
    assert (Hn : n = Z.max (d + e - 99) (-1074) - (e - 46)).
    { unfold n. rewrite fexp_binary64. lia. }
    destruct (binary_round_aux_positive M (e + -46) n eq_refl ltac:(lia))
      as [m1 [R [Q Cases]]].
    assert (Top : e + -46 + n = -46 -> m1 <= 7036874417766400).
    { intros T. assert (n = 53) by lia. assert (e = -53) by lia.
      assert (Zpos M / 2 ^ n < 7036874417766400); [ | lia].
      apply Z.div_lt_upper_bound; [apply Z.pow_pos_nonneg; lia | ].
      replace n with 53 by lia. change (2 ^ 53) with 9007199254740992 in *. lia. }
    destruct Cases as [[Z0 ->] | [[[P1 P2] ->] | [P ->]]].
    + split; reflexivity.
    + replace (e + -46 + n <=? 971) with true by (symmetry; apply Z.leb_le; lia).
      split; [reflexivity | ].
      apply fle_finite_pos. rewrite Z2Pos.id by lia.
      destruct (Z_lt_le_dec (e + -46 + n) (-46)); [left; lia | right]. split; [lia | ].
      apply Top. lia.
    + assert (e + -46 + n < -46).
      { destruct (Z_lt_le_dec (e + -46 + n) (-46)); [lia | ].
        assert (m1 <= 7036874417766400) by (apply Top; lia).
        change (2 ^ 53) with 9007199254740992 in P. lia. }
      replace (e + -46 + n + 1 <=? 971) with true by (symmetry; apply Z.leb_le; lia).
      split; [reflexivity | ].
      apply fle_finite_pos.
      destruct (Z_lt_le_dec (e + -46 + n + 1) (-46)); [left; lia | right]. split; [lia | ].
      vm_compute. discriminate.
Qed.

(** [<=] on binary64 numbers is a total preorder away from NaN. *)

Lemma fle_refl (x : float) : is_nan x = false -> fle x x = true.
Proof.
  unfold fle, SFleb, SFcompare. float_cases x; intros H;
    try discriminate; try reflexivity; compare_cases;
    try reflexivity; cbn; lia.
Qed.

Lemma fle_total (x y : float) :
  is_nan x = false -> is_nan y = false -> fle x y = false -> fle y x = true.
Proof.
  unfold fle, SFleb, SFcompare. float_cases x; float_cases y; intros Hx Hy H;
    try discriminate; try reflexivity; compare_cases;
    try discriminate; try reflexivity; cbn in *; try discriminate; lia.
Qed.

Lemma fle_trans (x y z : float) :
  fle x y = true -> fle y z = true -> fle x z = true.
Proof.
  unfold fle, SFleb, SFcompare. float_cases x; float_cases y;
    try discriminate; float_cases z; intros H1 H2;
    try discriminate; try reflexivity; compare_cases;
    try discriminate; try reflexivity; cbn in *; try discriminate; lia.
Qed.

Lemma maximum_cases (a b : float) :
  is_nan a = false -> is_nan b = false ->
  (maximum a b = a \/ maximum a b = b)
  /\ fle a (maximum a b) = true /\ fle b (maximum a b) = true.
Proof.
  intros Ha Hb. unfold maximum. rewrite Ha. cbn [orb].
  destruct (fle b a) eqn:E.
  - split; [left; reflexivity | ]. split; [apply fle_refl; exact Ha | exact E].
  - split; [right; reflexivity | ].
    split; [apply fle_total; assumption | apply fle_refl; exact Hb].
Qed.

(** The reduction of [np.max]: the result is an entry and no entry
    exceeds it. *)
Lemma fold_maximum_spec (ys : list float) : forall y,
  Forall (fun z => is_nan z = false) (y :: ys) ->
  let m := fold_left maximum ys y in
  is_nan m = false /\ In m (y :: ys) /\ Forall (fun z => fle z m = true) (y :: ys).
Proof.
  induction ys as [ | z ys IH]; intros y H; cbn [fold_left].
  - inversion H; subst. split; [assumption | ]. split; [left; reflexivity | ].
    constructor; [apply fle_refl; assumption | constructor].
  - inversion H as [ | ? ? Hy H']; subst. inversion H' as [ | ? ? Hz Hys]; subst.
    destruct (maximum_cases y z Hy Hz) as [Hmax [Ly Lz]].
    assert (Hn : is_nan (maximum y z) = false) by (destruct Hmax as [-> | ->]; assumption).
    destruct (IH (maximum y z) (Forall_cons _ Hn Hys)) as [Nm [Im Fm]].
    inversion Fm as [ | ? ? Lmax Fys]; subst.
    split; [exact Nm | ]. split.
    + destruct Im as [E | I]; [ | right; right; exact I].
      rewrite <- E. destruct Hmax as [-> | ->]; [left | right; left]; reflexivity.
    + constructor; [apply fle_trans with (1 := Ly); exact Lmax | ].
      constructor; [apply fle_trans with (1 := Lz); exact Lmax | exact Fys].
Qed.

Lemma probability_not_nan (y : float) : probability y -> is_nan y = false.
Proof.
  intros [_ [L _]]. destruct y; try reflexivity. discriminate.
Qed.

Lemma np_max_distribution (a : ndarray) :
  distribution a ->
  exists m, np_max a = Ok m /\ probability m /\ In m (List.concat a)
            /\ Forall (fun y => fle y m = true) (List.concat a).
Proof.
  intros [Ne F]. unfold np_max.
  destruct (List.concat a) as [ | y ys] eqn:E; [congruence | ].
  assert (N : Forall (fun z => is_nan z = false) (y :: ys)).
  { apply Forall_impl with (2 := F). exact probability_not_nan. }
  destruct (fold_maximum_spec ys y N) as [_ [I L]].
  exists (fold_left maximum ys y). split; [reflexivity | ].
  split; [ | split; assumption].
  rewrite Forall_forall in F. apply F. exact I.
Qed.

End Binary64.

Section Presentation.

Context {St : Type}.

Lemma confidence_line_run (c : pynum) (s : St) :
  confidence_line c s =
  (Ok tt, s, if gt0 c then [Show (StWrite (confidence_text c))] else []).
Proof.
  unfold confidence_line. destruct (gt0 c); reflexivity.
Qed.

Lemma render_run (l : label) (c : pynum) (s : St) :
  render l c s =
  (Ok tt, s,
   Show Rule ::
   (if (l =? 1)%Z then [Show DangerCard] else [Show SafeCard; Show Balloons])
   ++ (if gt0 c then [Show (StWrite (confidence_text c))] else [])).
Proof.
  unfold render, bind, show, emit.
  destruct (l =? 1)%Z; rewrite confidence_line_run; reflexivity.
Qed.

(** C10. Every label other than 1, in or out of {0,1}, gets the low-risk
    card and the balloons; the high-risk card appears for label 1 only. *)
Theorem render_only_one_is_high_risk (l : label) (c : pynum) (s : St) :
  let r := render l c s in
  result_of r = Ok tt /\
  (In DangerCard (shown (trace_of r)) <-> l = 1%Z) /\
  (In SafeCard (shown (trace_of r)) <-> l <> 1%Z) /\
  (In Balloons (shown (trace_of r)) <-> l <> 1%Z).
Proof.
  cbv zeta. rewrite render_run. unfold result_of, trace_of. simpl fst; simpl snd.
  destruct (Z.eqb_spec l 1) as [E | N]; destruct (gt0 c); simpl;
    repeat split; intros; try congruence;
    repeat match goal with
    | H : _ \/ _ |- _ => destruct H
    | H : False |- _ => destruct H
    end; try discriminate; try congruence; auto.
Qed.

(** C1, as the code has it. A label outside {0,1} is not reported: the run
    returns normally, shows no error, and renders the low-risk card with
    the balloons, followed by the confidence line when there is one. *)
Theorem render_unexpected_label (l : label) (c : pynum) (s : St)
    (H0 : l <> 0%Z) (H1 : l <> 1%Z) :
  render l c s =
    (Ok tt, s,
     [Show Rule; Show SafeCard; Show Balloons]
     ++ (if gt0 c then [Show (StWrite (confidence_text c))] else []))
  /\ reports_failure (render l c s) = false.
Proof.
  rewrite render_run. apply Z.eqb_neq in H1. rewrite H1. split.
  - reflexivity.
  - unfold reports_failure, result_of, trace_of. simpl.
    destruct (gt0 c); reflexivity.
Qed.

End Presentation.

Lemma render_unexpected_label_witness :
  render 2 (PyInt 0) tt = (Ok tt, tt, [Show Rule; Show SafeCard; Show Balloons])
  /\ reports_failure (render 2 (PyInt 0) tt) = false.
Proof.
  apply (render_unexpected_label 2 (PyInt 0) tt); discriminate.
Defined.

(** C1 as stated fails: label 2 is rendered as the low-risk card and
    nothing is reported. *)
Lemma unexpected_label_not_reported :
  reports_failure (render 2 (PyInt 0) tt) = false
  /\ In SafeCard (shown (trace_of (render 2 (PyInt 0) tt))).
Proof.
  split; [reflexivity | simpl; auto].
Qed.

Section Loader.

Context {Internal : Type}.
Implicit Types (p : process Internal) (fs : artifact Internal) (ses : session).

(** The body of the loader, case by case. *)
Lemma load_model_body_run fs p :
  load_model_body fs p =
  match fs with
  | Absent =>
      (Ok None, p, [Open model_path; Show (StError not_found_msg)])
  | Unopenable e =>
      if is_FileNotFoundError e
      then (Ok None, p, [Open model_path; Show (StError not_found_msg)])
      else (Raise e, p, [Open model_path])
  | Corrupt e =>
      if is_FileNotFoundError e
      then (Ok None, p, [Open model_path; Unpickle; Show (StError not_found_msg)])
      else (Raise e, p, [Open model_path; Unpickle])
  | Pickled o => (Ok (Some o), p, [Open model_path; Unpickle])
  end.
Proof.
  destruct fs as [ | e | e | o]; try reflexivity; destruct e; reflexivity.
Qed.

Lemma load_model_hit p v els fs :
  cache p = Some (v, els) -> load_model fs p = (Ok v, p, map Show els).
Proof.
  intros H. unfold load_model, cache_resource. rewrite H. reflexivity.
Qed.

Lemma load_model_miss p fs :
  cache p = None ->
  load_model fs p =
  match load_model_body fs p with
  | (Ok v, _, t) => (Ok v, {| cache := Some (v, shown t) |}, t)
  | (Raise e, p1, t) => (Raise e, p1, t)
  end.
Proof.
  intros H. unfold load_model, cache_resource. rewrite H. reflexivity.
Qed.

Lemma no_file_access_in_replay (els : list element) :
  filter is_file_access (map Show els) = [].
Proof.
  induction els as [ | el els IH]; simpl; auto.
Qed.

Lemma no_inference_in_replay (els : list element) :
  filter is_inference (map Show els) = [].
Proof.
  induction els as [ | el els IH]; simpl; auto.
Qed.

(** The loader never encodes and never calls the classifier. *)
Lemma load_model_no_inference fs p :
  filter is_inference (trace_of (load_model fs p)) = [].
Proof.
  destruct (cache p) as [[v els] | ] eqn:C.
  - rewrite (load_model_hit _ _ _ _ C). apply no_inference_in_replay.
  - rewrite (load_model_miss _ _ C), load_model_body_run.
    destruct fs as [ | e | e | o]; try reflexivity; destruct e; reflexivity.
Qed.

(** The script around the loader: what a run shows when [model] is
    [None]. *)
Lemma script_unavailable fs ses p p1 t :
  load_model fs p = (Ok None, p1, t) ->
  script fs ses p =
  (Ok tt, p1,
   [Show PageConfig; Show Css] ++ t
   ++ [Show Sidebar; Show MainHeader; Show SubHeader; Show awaiting]).
Proof.
  intros H. unfold script, bind, show, emit. rewrite H. simpl.
  reflexivity.
Qed.

(** C2, as the code has it. A missing file makes the loader return [None]
    without raising, and the run then shows the waiting notice and nothing
    of the form, the inference or the result cards. A file that fails to
    deserialize raises out of the loader and ends the run, whatever the
    exception, unless it is a [FileNotFoundError]. *)
Theorem load_model_missing_or_corrupt ses :
  load_model (@Absent Internal) fresh =
    (Ok None, {| cache := Some (None, [StError not_found_msg]) |},
     [Open model_path; Show (StError not_found_msg)])
  /\ script (@Absent Internal) ses fresh =
    (Ok tt, {| cache := Some (None, [StError not_found_msg]) |},
     [Show PageConfig; Show Css; Open model_path; Show (StError not_found_msg);
      Show Sidebar; Show MainHeader; Show SubHeader; Show awaiting])
  /\ (forall e, is_FileNotFoundError e = false ->
      load_model (@Corrupt Internal e) fresh = (Raise e, fresh, [Open model_path; Unpickle])
      /\ script (@Corrupt Internal e) ses fresh =
         (Raise e, fresh, [Show PageConfig; Show Css; Open model_path; Unpickle])).
Proof.
  split; [reflexivity | split; [reflexivity | ]].
  intros e He.
  assert (L : load_model (@Corrupt Internal e) fresh
              = (Raise e, fresh, [Open model_path; Unpickle])).
  { rewrite load_model_miss by reflexivity.
    rewrite load_model_body_run, He. reflexivity. }
  split; [exact L | ].
  unfold script, bind, show, emit. rewrite L. reflexivity.
Qed.

(** C5. Whenever the loader returns [None], the run ends normally with the
    waiting notice as the only element of the main area; nothing is
    encoded and the classifier is never called. *)
Theorem unavailable_suppresses_inference fs ses p p1 t
    (H : load_model fs p = (Ok None, p1, t)) :
  script fs ses p =
    (Ok tt, p1,
     [Show PageConfig; Show Css] ++ t
     ++ [Show Sidebar; Show MainHeader; Show SubHeader; Show awaiting])
  /\ filter is_inference (trace_of (script fs ses p)) = [].
Proof.
  split.
  - apply script_unavailable; assumption.
  - rewrite (script_unavailable _ ses _ _ _ H).
    pose proof (load_model_no_inference fs p) as N. rewrite H in N.
    unfold trace_of in *. simpl in *.
    rewrite filter_app. rewrite N. reflexivity.
Qed.

End Loader.

(** With a corrupt artifact the exception leaves the loader uncaught. *)
Lemma corrupt_artifact_escapes :
  result_of (load_model (@Corrupt nat UnpicklingError) fresh) = Raise UnpicklingError
  /\ result_of (script (@Corrupt nat UnpicklingError)
                  {| fields := Scenario.scenario_A; clicked := false |} fresh)
     = Raise UnpicklingError.
Proof.
  split; reflexivity.
Qed.

Lemma unavailable_suppresses_inference_witness :
  script (@Absent nat) {| fields := Scenario.scenario_A; clicked := true |} fresh =
    (Ok tt, {| cache := Some (None, [StError not_found_msg]) |},
     [Show PageConfig; Show Css]
     ++ [Open model_path; Show (StError not_found_msg)]
     ++ [Show Sidebar; Show MainHeader; Show SubHeader; Show awaiting])
  /\ filter is_inference
       (trace_of (script (@Absent nat)
                    {| fields := Scenario.scenario_A; clicked := true |} fresh)) = [].
Proof.
  apply (unavailable_suppresses_inference Absent
           {| fields := Scenario.scenario_A; clicked := true |} fresh
           {| cache := Some (None, [StError not_found_msg]) |}
           [Open model_path; Show (StError not_found_msg)]).
  reflexivity.
Defined.

(** *** Traces of composed statements *)

Section Traces.

Context {St : Type}.
Variable f : event -> bool.

Lemma silent_bind {A B} (m : M St A) (k : A -> M St B) (s : St) :
  silent f (m s) -> (forall a s', silent f (k a s')) -> silent f (bind m k s).
Proof.
  unfold silent, bind, trace_of. intros Hm Hk.
  destruct (m s) as [[[a | e] s1] t1]; simpl in *; auto.
  specialize (Hk a s1). destruct (k a s1) as [[r s2] t2]. simpl in *.
  rewrite filter_app, Hm, Hk. reflexivity.
Qed.

Lemma silent_try_except {A} (m : M St A) (h : exn -> option (M St A)) (s : St) :
  silent f (m s) -> (forall e k s', h e = Some k -> silent f (k s')) ->
  silent f (try_except m h s).
Proof.
  unfold silent, try_except, trace_of. intros Hm Hh.
  destruct (m s) as [[[a | e] s1] t1]; simpl in *; auto.
  destruct (h e) as [k | ] eqn:E; simpl; auto.
  specialize (Hh e k s1 E). destruct (k s1) as [[r s2] t2]. simpl in *.
  rewrite filter_app, Hm, Hh. reflexivity.
Qed.

Lemma silent_ret {A} (a : A) (s : St) : silent f (ret a s).
Proof. reflexivity. Qed.

Lemma silent_lift {A} (r : outcome A) (s : St) : silent f (lift r s).
Proof. reflexivity. Qed.

Lemma silent_raise {A} (e : exn) (s : St) : silent f (@raise St A e s).
Proof. reflexivity. Qed.

Lemma silent_emit (ev : event) (s : St) : f ev = false -> silent f (emit ev s).
Proof. unfold silent, emit, trace_of. simpl. intros ->. reflexivity. Qed.

End Traces.

Section Memo.

Context {Internal : Type}.
Implicit Types (p : process Internal) (fs : artifact Internal) (ses : session)
  (c : classifier Internal).

Lemma silent_progress_bar (s : Internal) :
  silent is_file_access (@progress_bar Internal s).
Proof. reflexivity. Qed.

Lemma silent_call_predict c x (s : Internal) :
  silent is_file_access (call_predict c x s).
Proof.
  unfold silent, call_predict, trace_of. destruct (predict c s x). reflexivity.
Qed.

Lemma silent_call_predict_proba c x (s : Internal) :
  silent is_file_access (call_predict_proba c x s).
Proof.
  unfold silent, call_predict_proba, trace_of.
  destruct (predict_proba c) as [g | ]; [destruct (g s x) | ]; reflexivity.
Qed.

Lemma silent_render (l : label) (conf : pynum) (s : Internal) :
  silent is_file_access (render l conf s).
Proof.
  unfold silent. rewrite render_run. unfold trace_of. simpl.
  destruct (l =? 1)%Z; destruct (gt0 conf); reflexivity.
Qed.

(** The prediction section reads no file. *)
Lemma silent_analyze c (i : ClinicalInput) (s : Internal) :
  silent is_file_access (analyze c i s).
Proof.
  unfold analyze.
  apply silent_bind; [apply silent_progress_bar | intros _ s1].
  apply silent_bind; [apply silent_emit; reflexivity | intros _ s2].
  apply silent_bind; [ | intros rc s3; apply silent_render].
  unfold infer.
  apply silent_bind.
  - unfold classify. apply silent_bind; [apply silent_call_predict | ].
    intros; apply silent_lift.
  - intros l s3. apply silent_bind; [ | intros; apply silent_ret].
    unfold confidence_of. apply silent_try_except.
    + unfold estimate. apply silent_bind; [apply silent_call_predict_proba | ].
      intros proba s4. apply silent_bind; [apply silent_lift | ].
      intros; apply silent_ret.
    + intros e k s' E. injection E as <-. apply silent_ret.
Qed.

Lemma cached_store p (s' : Internal) : cached (store s' p) = cached p.
Proof.
  destruct p as [[[[o | ] els] | ]]; reflexivity.
Qed.

(** A result returned by the loader is the one the cache holds. *)
Lemma load_model_fills_cache fs p v p1 t :
  load_model fs p = (Ok v, p1, t) -> cached p1 = Some (option_map cls v).
Proof.
  destruct (cache p) as [[v0 els] | ] eqn:C.
  - rewrite (load_model_hit _ _ _ _ C). intros E. injection E as <- <- _.
    unfold cached. rewrite C. reflexivity.
  - rewrite (load_model_miss _ _ C).
    destruct (load_model_body fs p) as [[[v0 | e] p0] t0]; intros E; [ | discriminate].
    injection E as <- <- _. reflexivity.
Qed.

(** With a filled cache a run reads no file and leaves the cache's
    classifier (or its absence) as it was. *)
Lemma script_keeps_cache fs ses p k :
  cached p = Some k ->
  cached (state_of (script fs ses p)) = Some k
  /\ silent is_file_access (script fs ses p).
Proof.
  unfold cached. destruct (cache p) as [[v els] | ] eqn:C; [ | discriminate].
  intros E. injection E as <-.
  pose proof (load_model_hit _ _ _ fs C) as L.
  assert (K : cached p = Some (option_map cls v)) by (unfold cached; rewrite C; reflexivity).
  unfold script, bind, show, emit, state_of, trace_of, silent. rewrite L. simpl.
  destruct v as [o | ]; simpl.
  - destruct (truthy (cls o)); simpl.
    + destruct (clicked ses); simpl.
      * unfold with_model.
        pose proof (silent_analyze (cls o) (fields ses) (self o)) as Q.
        unfold silent, trace_of in Q.
        destruct (analyze (cls o) (fields ses) (self o)) as [[r s'] t']. simpl in *.
        split.
        -- change (cached (store s' p) = Some (Some (cls o))).
           rewrite cached_store. exact K.
        -- rewrite filter_app, no_file_access_in_replay. simpl. exact Q.
      * split; [exact K | ].
        rewrite filter_app, no_file_access_in_replay. reflexivity.
    + split; [exact K | ].
      rewrite filter_app, no_file_access_in_replay. reflexivity.
  - split; [exact K | ].
    rewrite filter_app, no_file_access_in_replay. reflexivity.
Qed.

Lemma serve_keeps_cache reqs : forall p k,
  cached p = Some k ->
  cached (fst (serve reqs p)) = Some k
  /\ filter is_file_access (snd (serve reqs p)) = [].
Proof.
  induction reqs as [ | [fs ses] rest IH]; intros p k K; simpl.
  - auto.
  - destruct (script_keeps_cache fs ses p k K) as [K1 Q1].
    specialize (IH _ _ K1).
    destruct (serve rest (state_of (script fs ses p))) as [p' t']. simpl in *.
    destruct IH as [K2 Q2]. split; [exact K2 | ].
    rewrite filter_app, Q2. unfold silent in Q1. rewrite Q1. reflexivity.
Qed.

(** C9. Once the loader has returned a result, loaded classifier or
    [None], every later request of the process reuses it: whatever the
    file has become, no run opens or unpickles it again, and a further
    call of the loader returns the same classifier, or [None] again,
    from the cache without touching the process. *)
Theorem load_model_memoized fs p v p1 t
    (H : load_model fs p = (Ok v, p1, t)) :
  forall reqs fs',
    let p2 := fst (serve reqs p1) in
    filter is_file_access (snd (serve reqs p1)) = []
    /\ exists v' t',
         load_model fs' p2 = (Ok v', p2, t')
         /\ option_map cls v' = option_map cls v
         /\ (v = None -> v' = None)
         /\ filter is_file_access t' = [].
Proof.
  intros reqs fs' p2.
  pose proof (load_model_fills_cache _ _ _ _ _ H) as K.
  destruct (serve_keeps_cache reqs p1 _ K) as [K2 Q]. fold p2 in K2.
  split; [exact Q | ].
  unfold cached in K2. destruct (cache p2) as [[v' els] | ] eqn:C; [ | discriminate].
  exists v', (map Show els).
  injection K2 as E.
  split; [apply load_model_hit; exact C | ].
  split; [exact E | ].
  split; [ | apply no_file_access_in_replay].
  intros ->. destruct v'; [discriminate | reflexivity].
Qed.

End Memo.

Lemma load_model_memoized_witness :
  let p1 : process nat := {| cache := Some (None, [StError not_found_msg]) |} in
  let reqs := [(Pickled {| cls := Scenario.healthy; self := 0%nat |},
                {| fields := Scenario.scenario_A; clicked := true |})] in
  let p2 := fst (serve reqs p1) in
  filter is_file_access (snd (serve reqs p1)) = []
  /\ exists v' t',
       load_model (Pickled {| cls := Scenario.healthy; self := 0%nat |}) p2 = (Ok v', p2, t')
       /\ option_map cls v' = option_map cls None
       /\ (@None (object nat) = None -> v' = None)
       /\ filter is_file_access t' = [].
Proof.
  apply (load_model_memoized Absent fresh None
           {| cache := Some (None, [StError not_found_msg]) |}
           [Open model_path; Show (StError not_found_msg)]).
  reflexivity.
Defined.

(** *** The Inference Engine *)

Section Inference.

Context {Internal : Type}.
Implicit Types (c : classifier Internal) (x : features) (s : Internal)
  (i : ClinicalInput).

Lemma classify_run c x s :
  classify c x s =
  match predict c s x with
  | (Ok [], s1) => (Raise IndexError, s1, [Predict x])
  | (Ok (l :: _), s1) => (Ok l, s1, [Predict x])
  | (Raise e, s1) => (Raise e, s1, [Predict x])
  end.
Proof.
  unfold classify, bind, call_predict, lift.
  destruct (predict c s x) as [[[ | l rest] | e] s1]; reflexivity.
Qed.

(** The [try] body, when the method exists. *)
Lemma estimate_run c x s g :
  predict_proba c = Some g ->
  estimate c x s =
  match g s x with
  | (Ok a, s1) =>
      match np_max a with
      | Ok m => (Ok (PyFloat (fmul m f100)), s1, [PredictProba x])
      | Raise e => (Raise e, s1, [PredictProba x])
      end
  | (Raise e, s1) => (Raise e, s1, [PredictProba x])
  end.
Proof.
  intros Hg. unfold estimate, bind, call_predict_proba, lift. rewrite Hg.
  destruct (g s x) as [[a | e] s1]; [ | reflexivity].
  destruct (np_max a); reflexivity.
Qed.

(** The bare [except] absorbs every failure of the estimate. *)
Lemma confidence_of_failure c x s s' t :
  proba_unavailable c x s s' t ->
  confidence_of c x s = (Ok (PyInt 0), s', t).
Proof.
  intros [Hn | g e s1 Hg Hr | g a e s1 Hg Hr Hm]; unfold confidence_of, try_except.
  - unfold estimate, bind, call_predict_proba. rewrite Hn. reflexivity.
  - rewrite (estimate_run _ _ _ _ Hg), Hr. reflexivity.
  - rewrite (estimate_run _ _ _ _ Hg), Hr, Hm. reflexivity.
Qed.

Lemma confidence_of_success c x s g a s' m :
  predict_proba c = Some g -> g s x = (Ok a, s') -> np_max a = Ok m ->
  confidence_of c x s = (Ok (PyFloat (fmul m f100)), s', [PredictProba x]).
Proof.
  intros Hg Hr Hm. unfold confidence_of, try_except.
  rewrite (estimate_run _ _ _ _ Hg), Hr, Hm. reflexivity.
Qed.

Lemma infer_run c x s l rest s1 conf s2 t :
  predict c s x = (Ok (l :: rest), s1) ->
  confidence_of c x s1 = (Ok conf, s2, t) ->
  infer c x s = (Ok (l, conf), s2, Predict x :: t).
Proof.
  intros Hp Hc. unfold infer, bind. rewrite classify_run, Hp, Hc.
  simpl. rewrite app_nil_r. reflexivity.
Qed.

Lemma analyze_run c i s l conf s2 t :
  infer c (input_data i) s = (Ok (l, conf), s2, t) ->
  analyze c i s =
  (Ok tt, s2,
   progress_events ++ Encode (input_data i) :: t ++ trace_of (render l conf s2)).
Proof.
  intros Hi. unfold analyze, bind at 1. unfold progress_bar at 1.
  unfold bind at 1. unfold emit at 1. unfold bind at 1. rewrite Hi.
  cbn [fst snd]. rewrite render_run. reflexivity.
Qed.

Lemma shown_app (t1 t2 : list event) : shown (t1 ++ t2) = shown t1 ++ shown t2.
Proof.
  induction t1 as [ | [ | | | | | el] t1 IH]; simpl; auto. rewrite IH. reflexivity.
Qed.

Lemma shown_render {St} (l : label) (conf : pynum) (st : St) :
  shown (trace_of (render l conf st)) =
  Rule :: card l ++ (if gt0 conf then [StWrite (confidence_text conf)] else []).
Proof.
  rewrite render_run. unfold trace_of, card. simpl.
  destruct (l =? 1)%Z; destruct (gt0 conf); reflexivity.
Qed.

Lemma no_line_in_card (l : label) : existsb is_confidence_line (Rule :: card l) = false.
Proof.
  unfold card. destruct (l =? 1)%Z; reflexivity.
Qed.

(** C3. When [predict] returns a label and the probability estimate is
    unsupported or fails, in whatever way, the failure is absorbed: the
    engine returns the label with confidence [0], the run ends normally,
    and the page shows the card of that label without a confidence
    line. *)
Theorem proba_failure_absorbed c x s l rest s1 s2 t
    (Hp : predict c s x = (Ok (l :: rest), s1))
    (Hf : proba_unavailable c x s1 s2 t) :
  infer c x s = (Ok (l, PyInt 0), s2, Predict x :: t)
  /\ shown (trace_of (render l (PyInt 0) s2)) = Rule :: card l
  /\ forall i, input_data i = x ->
       result_of (analyze c i s) = Ok tt
       /\ shown (trace_of (analyze c i s)) =
          shown progress_events ++ Rule :: card l
       /\ existsb is_confidence_line (Rule :: card l) = false.
Proof.
  pose proof (confidence_of_failure _ _ _ _ _ Hf) as Hc.
  pose proof (infer_run _ _ _ _ _ _ _ _ _ Hp Hc) as Hi.
  split; [exact Hi | ].
  split; [rewrite shown_render; simpl; f_equal; apply app_nil_r | ].
  intros i <-. rewrite (analyze_run _ _ _ _ _ _ _ Hi).
  split; [reflexivity | ]. split; [ | apply no_line_in_card].
  unfold trace_of at 1. cbn [snd].
  rewrite shown_app. f_equal.
  change (shown (Predict (input_data i) :: t ++ trace_of (render l (PyInt 0) s2))
          = Rule :: card l).
  simpl. rewrite shown_app, shown_render. simpl. rewrite app_nil_r.
  destruct Hf; reflexivity.
Qed.

End Inference.

(** Scenario B: label 1 and a probability call that raises. *)
Lemma proba_failure_absorbed_witness :
  let x := input_data Scenario.scenario_B in
  infer Scenario.at_risk_failing_proba x 0%nat
    = (Ok (1%Z, PyInt 0), 1%nat, [Predict x; PredictProba x])
  /\ shown (trace_of (render 1 (PyInt 0) 1%nat)) = Rule :: card 1
  /\ forall i, input_data i = x ->
       result_of (analyze Scenario.at_risk_failing_proba i 0%nat) = Ok tt
       /\ shown (trace_of (analyze Scenario.at_risk_failing_proba i 0%nat)) =
          shown progress_events ++ Rule :: card 1
       /\ existsb is_confidence_line (Rule :: card 1) = false.
Proof.
  apply (proba_failure_absorbed Scenario.at_risk_failing_proba
           (input_data Scenario.scenario_B) 0%nat 1%Z [] 0%nat 1%nat
           [PredictProba (input_data Scenario.scenario_B)]).
  - reflexivity.
  - apply (CallRaises _ _ _ (fun s _ => (Raise (Other "RuntimeError"), Datatypes.S s))
             (Other "RuntimeError")); reflexivity.
Defined.

(** *** The Feature Encoder *)

Section Encoder.

Context {Internal : Type}.
Implicit Types (c : classifier Internal) (x : features) (s : Internal)
  (i : ClinicalInput).

Lemma only_bind {St A B} (P : event -> Prop) (m : M St A) (k : A -> M St B) (st : St) :
  only P (m st) -> (forall a st', only P (k a st')) -> only P (bind m k st).
Proof.
  unfold only, bind, trace_of. intros Hm Hk.
  destruct (m st) as [[[a | e] s1] t1]; cbn [snd] in *; auto.
  specialize (Hk a s1). destruct (k a s1) as [[r s2] t2]. cbn [snd] in *.
  apply Forall_app; auto.
Qed.

Lemma only_try_except {St A} (P : event -> Prop) (m : M St A)
    (h : exn -> option (M St A)) (st : St) :
  only P (m st) -> (forall e k st', h e = Some k -> only P (k st')) ->
  only P (try_except m h st).
Proof.
  unfold only, try_except, trace_of. intros Hm Hh.
  destruct (m st) as [[[a | e] s1] t1]; cbn [snd] in *; auto.
  destruct (h e) as [k | ] eqn:E; cbn [snd]; auto.
  specialize (Hh e k s1 E). destruct (k s1) as [[r s2] t2]. cbn [snd] in *.
  apply Forall_app; auto.
Qed.

Lemma progress_events_shown (P : event -> Prop) :
  (forall el, P (Show el)) -> Forall P progress_events.
Proof.
  intros H. unfold progress_events. constructor; [apply H | ].
  apply Forall_app. split.
  - apply Forall_forall. intros ev Hin. apply in_map_iff in Hin.
    destruct Hin as [n [<- _]]. apply H.
  - constructor; [apply H | constructor].
Qed.

(** Whatever the classifier does, every inference event of the
    prediction section is about the row [input_data i]. *)
Lemma analyze_about_input c i s : only (about (input_data i)) (analyze c i s).
Proof.
  set (x := input_data i).
  assert (HS : forall el, about x (Show el)) by (intros; exact I).
  unfold analyze. fold x.
  apply only_bind; [apply progress_events_shown; exact HS | intros _ s1].
  apply only_bind; [repeat constructor | intros _ s2].
  apply only_bind.
  - unfold infer. apply only_bind.
    + unfold classify. apply only_bind.
      * unfold only, call_predict, trace_of. destruct (predict c s2 x).
        repeat constructor.
      * intros; constructor.
    + intros l s3. apply only_bind; [ | intros; constructor].
      unfold confidence_of. apply only_try_except.
      * unfold estimate. apply only_bind.
        -- unfold only, call_predict_proba, trace_of.
           destruct (predict_proba c) as [g | ]; [destruct (g s3 x) | ];
             repeat constructor.
        -- intros a s4. apply only_bind; intros; constructor.
      * intros e k st' E. injection E as <-. constructor.
  - intros rc s3. unfold only. rewrite render_run. unfold trace_of. cbn [snd].
    constructor; [exact I | ]. apply Forall_app. split.
    + destruct (fst rc =? 1)%Z; repeat constructor.
    + destruct (gt0 (snd rc)); repeat constructor.
Qed.

(** C4. For every input within the widget ranges the encoder builds one
    row of exactly five entries, in the order chest pain, thalassemia,
    vessels, heart rate, ST depression, each entry the widget's value as
    it is; and this row is the only one the classifier is ever asked
    about. *)
Theorem input_data_fixed_order i (H : valid_input i = true) :
  input_data i =
    [[PyInt (cp_display i); PyInt (thal_display i); PyInt (ca i);
      PyInt (thalach i); PyFloat (oldpeak i)]]
  /\ Forall (fun row => List.length row = 5%nat) (input_data i)
  /\ forall c s ev,
       In ev (trace_of (analyze c i s)) -> about (input_data i) ev.
Proof.
  split; [reflexivity | ]. split; [repeat constructor | ].
  intros c s ev Hin.
  pose proof (analyze_about_input c i s) as A. unfold only in A.
  rewrite Forall_forall in A. apply A. exact Hin.
Qed.

(** C8, as the code has it. With a classifier whose [predict] leaves the
    object unchanged, classifying the same row twice in a row gives the
    same outcome. The label is the first entry of what [predict]
    returned, taken as it is; it is 0 or 1 when the classifier's own
    labels are. *)
Theorem classify_deterministic c x s (H : immutable c) :
  let r1 := classify c x s in
  let r2 := classify c x (state_of r1) in
  result_of r2 = result_of r1
  /\ (forall l, result_of r1 = Ok l ->
        exists rest, fst (predict c s x) = Ok (l :: rest))
  /\ ((forall s' x' ls, fst (predict c s' x') = Ok ls ->
         Forall (fun l => l = 0%Z \/ l = 1%Z) ls) ->
      forall l, result_of r1 = Ok l -> l = 0%Z \/ l = 1%Z).
Proof.
  cbv zeta.
  assert (E : state_of (classify c x s) = s).
  { rewrite classify_run. specialize (H s x).
    destruct (predict c s x) as [[[ | l rest] | e] s1]; exact H. }
  rewrite E.
  assert (L : forall l, result_of (classify c x s) = Ok l ->
                exists rest, fst (predict c s x) = Ok (l :: rest)).
  { intros l. rewrite classify_run.
    destruct (predict c s x) as [[[ | l0 rest] | e] s1]; cbn; intros Q;
      try discriminate.
    injection Q as ->. exists rest. reflexivity. }
  split; [reflexivity | ]. split; [exact L | ].
  intros B l Hl. destruct (L l Hl) as [rest Hr].
  specialize (B _ _ _ Hr). inversion B. assumption.
Qed.

End Encoder.

Lemma input_data_fixed_order_witness :
  let i := Scenario.scenario_A in
  input_data i = [[PyInt 0; PyInt 2; PyInt 0; PyInt 150; PyFloat f1]]
  /\ Forall (fun row => List.length row = 5%nat) (input_data i)
  /\ forall (c : classifier nat) s ev,
       In ev (trace_of (analyze c i s)) -> about (input_data i) ev.
Proof.
  apply (@input_data_fixed_order nat Scenario.scenario_A). reflexivity.
Defined.

Lemma classify_deterministic_witness :
  let c := Scenario.healthy in
  let x := input_data Scenario.scenario_A in
  let r1 := classify c x 0%nat in
  let r2 := classify c x (state_of r1) in
  result_of r2 = result_of r1
  /\ (forall l, result_of r1 = Ok l ->
        exists rest, fst (predict c 0%nat x) = Ok (l :: rest))
  /\ ((forall s' x' ls, fst (predict c s' x') = Ok ls ->
         Forall (fun l => l = 0%Z \/ l = 1%Z) ls) ->
      forall l, result_of r1 = Ok l -> l = 0%Z \/ l = 1%Z).
Proof.
  apply (classify_deterministic Scenario.healthy
           (input_data Scenario.scenario_A) 0%nat).
  intros s x. reflexivity.
Defined.

(** C8 as stated fails: an immutable classifier with three classes
    returns label 2, and [classify] hands it on. *)
Lemma classify_label_outside_binary :
  immutable Scenario.three_class
  /\ result_of (classify Scenario.three_class (input_data Scenario.scenario_A) 0%nat)
     = Ok 2%Z
  /\ ~ (2 = 0 \/ 2 = 1)%Z.
Proof.
  split; [intros s x; reflexivity | ].
  split; [reflexivity | ].
  intros [E | E]; discriminate.
Qed.

(** *** Scenario A *)

Section ScenarioA.

Context {Internal : Type}.

(** C6. On the input cp=0, thal=2, ca=0, thalach=150, oldpeak=1.0, with a
    classifier that answers label 0 and whose probabilities give the
    confidence 87.5, the run shows the low-risk card, the balloons and
    the confidence line reading 87.50%. *)
Theorem scenario_A_low_risk (c : classifier Internal) (s s1 s2 : Internal)
    rest g a m
    (Hp : predict c s (input_data Scenario.scenario_A) = (Ok (0%Z :: rest), s1))
    (Hg : predict_proba c = Some g)
    (Hr : g s1 (input_data Scenario.scenario_A) = (Ok a, s2))
    (Hm : np_max a = Ok m)
    (Hc : fmul m f100 = Scenario.f_87_5) :
  result_of (analyze c Scenario.scenario_A s) = Ok tt
  /\ shown (trace_of (analyze c Scenario.scenario_A s)) =
     shown progress_events
     ++ [Rule; SafeCard; Balloons; StWrite "**Model Confidence:** 87.50%"].
Proof.
  pose proof (confidence_of_success _ _ _ _ _ _ _ Hg Hr Hm) as C.
  pose proof (infer_run _ _ _ _ _ _ _ _ _ Hp C) as Hi.
  rewrite (analyze_run _ _ _ _ _ _ _ Hi). split; [reflexivity | ].
  unfold trace_of at 1. cbn [snd]. rewrite shown_app. f_equal.
  rewrite Hc. reflexivity.
Qed.

End ScenarioA.

Lemma scenario_A_low_risk_witness :
  result_of (analyze Scenario.healthy Scenario.scenario_A 0%nat) = Ok tt
  /\ shown (trace_of (analyze Scenario.healthy Scenario.scenario_A 0%nat)) =
     shown progress_events
     ++ [Rule; SafeCard; Balloons; StWrite "**Model Confidence:** 87.50%"].
Proof.
  apply (scenario_A_low_risk Scenario.healthy 0%nat 0%nat 1%nat []
           (fun s _ => (Ok [[Scenario.p_0_875; Scenario.p_0_125]], Datatypes.S s))
           [[Scenario.p_0_875; Scenario.p_0_125]] Scenario.p_0_875);
    reflexivity.
Defined.

(** *** Confidence *)

Section Confidence.

Context {Internal : Type}.

(** C7. When [predict_proba] returns a distribution, the confidence is
    its largest entry times 100 in binary64: an entry of the array that no
    entry exceeds, multiplied by 100, a value between 0 and 100. The page
    carries the confidence line exactly when the confidence is greater
    than 0. *)
Theorem confidence_is_max_percent (c : classifier Internal) (x : features)
    (s s' : Internal) g a
    (Hg : predict_proba c = Some g)
    (Hr : g s x = (Ok a, s'))
    (Hd : distribution a) :
  exists m,
    In m (List.concat a)
    /\ Forall (fun y => fle y m = true) (List.concat a)
    /\ confidence_of c x s = (Ok (PyFloat (fmul m f100)), s', [PredictProba x])
    /\ fle f0 (fmul m f100) = true
    /\ fle (fmul m f100) f100 = true
    /\ forall (l : label) (conf : pynum) (st : Internal),
         existsb is_confidence_line (shown (trace_of (render l conf st))) = gt0 conf.
Proof.
  destruct (np_max_distribution a Hd) as [m [Hm [Pm [Im Lm]]]].
  exists m. split; [exact Im | ]. split; [exact Lm | ].
  split; [exact (confidence_of_success _ _ _ _ _ _ _ Hg Hr Hm) | ].
  destruct (fmul_100_bounds m Pm) as [B0 B100].
  split; [exact B0 | ]. split; [exact B100 | ].
  intros l conf st. rewrite shown_render. unfold card.
  destruct (l =? 1)%Z; destruct (gt0 conf); reflexivity.
Qed.

End Confidence.

Lemma confidence_is_max_percent_witness :
  let a := [[Scenario.p_0_875; Scenario.p_0_125]] in
  let x := input_data Scenario.scenario_A in
  exists m,
    In m (List.concat a)
    /\ Forall (fun y => fle y m = true) (List.concat a)
    /\ confidence_of Scenario.healthy x 0%nat
       = (Ok (PyFloat (fmul m f100)), 1%nat, [PredictProba x])
    /\ fle f0 (fmul m f100) = true
    /\ fle (fmul m f100) f100 = true
    /\ forall (l : label) (conf : pynum) (st : nat),
         existsb is_confidence_line (shown (trace_of (render l conf st))) = gt0 conf.
Proof.
  apply (confidence_is_max_percent Scenario.healthy
           (input_data Scenario.scenario_A) 0%nat 1%nat
           (fun s _ => (Ok [[Scenario.p_0_875; Scenario.p_0_125]], Datatypes.S s))
           [[Scenario.p_0_875; Scenario.p_0_125]]).
  - reflexivity.
  - reflexivity.
  - split; [discriminate | ].
    repeat constructor; vm_compute; reflexivity.
Defined.

(** ** Further properties of the script *)

Section Binary64Further.

Local Open Scope Z_scope.

(** A positive probability times 100: the product is finite and positive
    (no underflow to zero), with mantissa and exponent at most those of
    100. *)
Lemma fmul_100_shape (m : positive) (e : Z) :
  bounded prec emax m e = true ->
  (e < -52 \/ (e = -52 /\ Zpos m <= 2 ^ 52))%Z ->
  exists m2 e2,
    fmul (S754_finite false m e) f100 = S754_finite false m2 e2
    /\ (Zpos m2 <= 2 ^ 53)%Z
    /\ (e2 < -46 \/ (e2 = -46 /\ Zpos m2 <= 7036874417766400))%Z.
Proof.
  intros Hb Hle.
  destruct (bounded_binary64 m e Hb) as [Dm [He Hc]].
  pose proof (digits2_pos_bounds m) as [Lm Um].
  destruct Hle as [Hlt | [-> Hm]].
  2:{ assert (Zpos (digits2_pos m) = 53) by lia.
      replace (Zpos (digits2_pos m) - 1) with 52 in Lm by lia.
      assert (E : m = (2 ^ 52)%positive) by lia. subst m.
      exists 7036874417766400%positive, (-46).
      split; [vm_compute; reflexivity | ]. split; [vm_compute; discriminate | ].
      right. split; [reflexivity | lia]. }
  change (fmul (S754_finite false m e) f100)
    with (binary_round_aux prec emax false (Zpos (m * 7036874417766400)) (e + -46) loc_Exact).
  set (M := (m * 7036874417766400)%positive).
  assert (HM : Zpos M = Zpos m * 7036874417766400) by (unfold M; lia).
  pose proof (digits2_pos_bounds M) as [LM UM].
  set (d := Zpos (digits2_pos M)) in *.
  set (dm := Zpos (digits2_pos m)) in *.
  assert (Um53 : Zpos m < 2 ^ 53).
  { apply Z.lt_le_trans with (1 := Um). apply Z.pow_le_mono_r; lia. }
  assert (D1 : 53 <= d).
  { assert (52 < d); [ | lia]. apply (Z.pow_lt_mono_r_iff 2); lia. }
  assert (D2 : d <= dm + 53).
  { assert (d - 1 < dm + 53); [ | lia]. apply (Z.pow_lt_mono_r_iff 2); try lia.
    apply Z.le_lt_trans with (1 := LM).
    rewrite Z.pow_add_r by lia. change (2 ^ 53) with 9007199254740992. nia. }
  set (n := fexp prec emax (d + (e + -46)) - (e + -46)).
  assert (Hn : n = Z.max (d + e - 99) (-1074) - (e - 46)).
  { unfold n. rewrite fexp_binary64. lia. }
  destruct (binary_round_aux_positive M (e + -46) n eq_refl ltac:(lia))
    as [m1 [R [Q Cases]]].
  assert (Pn : 0 < 2 ^ n) by (apply Z.pow_pos_nonneg; lia).
  assert (One : 1 <= Zpos M / 2 ^ n).
  { apply Z.div_le_lower_bound; [exact Pn | ].
    apply Z.le_trans with (2 := LM). rewrite Z.mul_1_r.
    apply Z.pow_le_mono_r; lia. }
  assert (Top : e + -46 + n = -46 -> m1 <= 7036874417766400).
  { intros T. assert (n = 53) by lia. assert (e = -53) by lia.
    assert (Zpos M / 2 ^ n < 7036874417766400); [ | lia].
    apply Z.div_lt_upper_bound; [exact Pn | ].
    replace n with 53 by lia. change (2 ^ 53) with 9007199254740992 in *. lia. }
  destruct Cases as [[Z0 _] | [[[P1 P2] ->] | [P ->]]].
  - lia.
  - replace (e + -46 + n <=? 971) with true by (symmetry; apply Z.leb_le; lia).
    exists (Z.to_pos m1), (e + -46 + n). split; [reflexivity | ].
    rewrite Z2Pos.id by lia. split; [lia | ].
    destruct (Z_lt_le_dec (e + -46 + n) (-46)); [left; lia | right]. split; [lia | ].
    apply Top. lia.
  - assert (e + -46 + n < -46).
    { destruct (Z_lt_le_dec (e + -46 + n) (-46)); [lia | ].
      assert (m1 <= 7036874417766400) by (apply Top; lia).
      change (2 ^ 53) with 9007199254740992 in P. lia. }
    replace (e + -46 + n + 1 <=? 971) with true by (symmetry; apply Z.leb_le; lia).
    exists (2 ^ 52)%positive, (e + -46 + n + 1). split; [reflexivity | ].
    split; [vm_compute; discriminate | ].
    destruct (Z_lt_le_dec (e + -46 + n + 1) (-46)); [left; lia | right]. split; [lia | ].
    vm_compute. discriminate.
Qed.

Lemma round_half_even_le (n d B : Z) :
  (0 < d -> 0 <= n <= B * d -> 0 <= round_half_even n d <= B)%Z.
Proof.
  intros Hd [L U]. unfold round_half_even.
  pose proof (Z.div_mod n d ltac:(lia)) as E.
  pose proof (Z.mod_pos_bound n d Hd) as [R0 R1].
  assert (Q0 : 0 <= n / d) by (apply Z.div_pos; lia).
  assert (QB : n / d <= B) by (apply Z.div_le_upper_bound; lia).
  destruct (Z_lt_le_dec (n / d) B) as [Lt | Ge].
  - destruct (2 * (n mod d) ?= d); [destruct (Z.even (n / d)) | | ]; lia.
  - assert (n / d = B) by lia. assert (n mod d = 0) by nia.
    replace (2 * (n mod d) ?= d) with Datatypes.Lt; [lia | ].
    symmetry. apply Z.compare_lt_iff. lia.
Qed.

(** Formatting a positive number that is at most 100: between 0 and 10000
    hundredths. *)
Lemma hundredths_at_most_100 (m2 : positive) (e2 : Z) :
  (Zpos m2 <= 2 ^ 53 ->
   e2 < -46 \/ (e2 = -46 /\ Zpos m2 <= 7036874417766400) ->
   0 <= hundredths m2 e2 <= 10000)%Z.
Proof.
  intros Hm He. unfold hundredths.
  replace (0 <=? e2)%Z with false by (symmetry; apply Z.leb_gt; lia).
  assert (P : (0 < 2 ^ (- e2))%Z) by (apply Z.pow_pos_nonneg; lia).
  apply round_half_even_le; [exact P | ]. split; [lia | ].
  change (2 ^ 53)%Z with 9007199254740992%Z in Hm.
  destruct He as [Lt | [-> Le]].
  - assert (2 ^ 47 <= 2 ^ (- e2))%Z by (apply Z.pow_le_mono_r; lia).
    change (2 ^ 47)%Z with 140737488355328%Z in *. lia.
  - change (2 ^ (- -46))%Z with 70368744177664%Z. lia.
Qed.

Lemma two_digits_length (z : Z) :
  (0 <= z < 100)%Z -> String.length (two_digits z) = 2%nat.
Proof.
  intros H.
  assert (A : forallb (fun k => Nat.eqb (String.length (two_digits (Z.of_nat k))) 2)
                (seq 0 100) = true) by (vm_compute; reflexivity).
  rewrite forallb_forall in A.
  specialize (A (Z.to_nat z)). rewrite Z2Nat.id in A by lia.
  apply Nat.eqb_eq. apply A. apply in_seq. lia.
Qed.

End Binary64Further.

Section Runs.

Context {Internal : Type}.
Implicit Types (p : process Internal) (fs : artifact Internal) (ses : session)
  (c : classifier Internal) (o : object Internal).

Lemma form_run p : form p = (Ok tt, p, map Show form_elements).
Proof. reflexivity. Qed.

(** A run in which the loader returned an object. *)
Lemma script_loaded fs ses p o p1 t :
  load_model fs p = (Ok (Some o), p1, t) ->
  script fs ses p =
  if truthy (cls o) then
    if clicked ses then
      (result_of (analyze (cls o) (fields ses) (self o)),
       store (state_of (analyze (cls o) (fields ses) (self o))) p1,
       page_top ++ t ++ page_head ++ map Show form_elements
       ++ trace_of (analyze (cls o) (fields ses) (self o)))
    else (Ok tt, p1, page_top ++ t ++ page_head ++ map Show form_elements)
  else (Ok tt, p1, page_top ++ t ++ page_head ++ [Show awaiting]).
Proof.
  intros H. unfold script.
  unfold bind at 1. unfold show at 1, emit at 1.
  unfold bind at 1. unfold show at 1, emit at 1.
  unfold bind at 1. rewrite H.
  unfold bind at 1. unfold show at 1, emit at 1.
  unfold bind at 1. unfold show at 1, emit at 1.
  unfold bind at 1. unfold show at 1, emit at 1.
  destruct (truthy (cls o)).
  - unfold bind at 1. rewrite form_run.
    destruct (clicked ses).
    + unfold with_model, result_of, state_of, trace_of.
      destruct (analyze (cls o) (fields ses) (self o)) as [[r s'] t'].
      reflexivity.
    + reflexivity.
  - reflexivity.
Qed.

End Runs.

Section RunsFurther.

Context {Internal : Type}.
Implicit Types (p : process Internal) (fs : artifact Internal) (ses : session)
  (c : classifier Internal) (o : object Internal) (i : ClinicalInput)
  (s : Internal) (x : features).

Lemma progress_no_inference : filter is_inference progress_events = [].
Proof. reflexivity. Qed.

(** X4. [if model:] tests the truth value of the object, not its presence:
    when the loader returns an object that is false in a condition, the
    run ends normally with the waiting notice and without any inference,
    although the object is loaded and cached. *)
Theorem falsy_model_waits fs ses p o p1 t
    (H : load_model fs p = (Ok (Some o), p1, t))
    (F : truthy (cls o) = false) :
  script fs ses p = (Ok tt, p1, page_top ++ t ++ page_head ++ [Show awaiting])
  /\ silent is_inference (script fs ses p).
Proof.
  rewrite (script_loaded _ ses _ _ _ _ H), F. split; [reflexivity | ].
  unfold silent, trace_of. cbn [snd].
  pose proof (load_model_no_inference fs p) as N. rewrite H in N.
  unfold trace_of in N. cbn [snd] in N.
  rewrite !filter_app, N. reflexivity.
Qed.

(** X3. With a loaded model and the button not pressed, the run shows the
    page and the form and stops there: nothing is encoded, the
    classifier is not called, and the cache keeps the loaded model. *)
Theorem no_click_no_inference fs ses p o p1 t
    (H : load_model fs p = (Ok (Some o), p1, t))
    (T : truthy (cls o) = true)
    (B : clicked ses = false) :
  script fs ses p =
    (Ok tt, p1, page_top ++ t ++ page_head ++ map Show form_elements)
  /\ silent is_inference (script fs ses p)
  /\ cached p1 = Some (Some (cls o)).
Proof.
  rewrite (script_loaded _ ses _ _ _ _ H), T, B. split; [reflexivity | ].
  split; [ | exact (load_model_fills_cache _ _ _ _ _ H)].
  unfold silent, trace_of. cbn [snd].
  pose proof (load_model_no_inference fs p) as N. rewrite H in N.
  unfold trace_of in N. cbn [snd] in N.
  rewrite !filter_app, N. reflexivity.
Qed.

(** The prediction section when [predict] gives no label. *)
Lemma analyze_without_label c i s e s1 :
  classify c (input_data i) s = (Raise e, s1, [Predict (input_data i)]) ->
  analyze c i s =
  (Raise e, s1, progress_events ++ [Encode (input_data i); Predict (input_data i)]).
Proof.
  intros H. unfold analyze.
  unfold bind at 1. unfold progress_bar at 1.
  unfold bind at 1. unfold emit at 1.
  unfold bind at 1. unfold infer. unfold bind at 1. rewrite H.
  reflexivity.
Qed.

(** X2. When [predict] raises, or returns an empty array so that
    [prediction[0]] raises [IndexError], the exception ends the run
    right after the call: [predict_proba] is not called, no rule and no
    result card is shown, and what the call did to the object stays in
    the cache. *)
Theorem predict_failure_ends_run fs ses p o p1 t e s1
    (H : load_model fs p = (Ok (Some o), p1, t))
    (T : truthy (cls o) = true)
    (B : clicked ses = true)
    (F : predict (cls o) (self o) (input_data (fields ses)) = (Raise e, s1)
         \/ (predict (cls o) (self o) (input_data (fields ses)) = (Ok [], s1)
             /\ e = IndexError)) :
  script fs ses p =
    (Raise e, store s1 p1,
     page_top ++ t ++ page_head ++ map Show form_elements ++ progress_events
     ++ [Encode (input_data (fields ses)); Predict (input_data (fields ses))]).
Proof.
  assert (C : classify (cls o) (input_data (fields ses)) (self o)
              = (Raise e, s1, [Predict (input_data (fields ses))])).
  { rewrite classify_run. destruct F as [-> | [-> ->]]; reflexivity. }
  rewrite (script_loaded _ ses _ _ _ _ H), T, B.
  rewrite (analyze_without_label _ _ _ _ _ C). reflexivity.
Qed.

(** The [try] always yields a confidence; the object ends in the state
    the probability call left it in. *)
Lemma confidence_of_total c x s :
  exists conf,
    confidence_of c x s =
    (Ok conf,
     match predict_proba c with Some g => snd (g s x) | None => s end,
     match predict_proba c with Some _ => [PredictProba x] | None => [] end).
Proof.
  destruct (predict_proba c) as [g | ] eqn:G.
  - destruct (g s x) as [[a | e] s2] eqn:R; cbn [snd].
    + destruct (np_max a) as [m | e] eqn:Mx.
      * exists (PyFloat (fmul m f100)).
        exact (confidence_of_success _ _ _ _ _ _ _ G R Mx).
      * exists (PyInt 0). apply confidence_of_failure.
        exact (NoMaximum _ _ _ _ _ _ _ G R Mx).
    + exists (PyInt 0). apply confidence_of_failure.
      exact (CallRaises _ _ _ _ _ _ G R).
  - exists (PyInt 0). apply confidence_of_failure. exact (Unsupported _ _ _ G).
Qed.

(** Every run of the prediction section is one of two: [predict] gives no
    label and the run raises after the call, or it gives one and the run
    ends with the rendering. *)
Lemma analyze_cases c i s :
  (exists e,
     asks_proba c (input_data i) s = false
     /\ analyze c i s =
        (Raise e, snd (predict c s (input_data i)),
         progress_events ++ [Encode (input_data i); Predict (input_data i)]))
  \/ (exists l conf,
        let s1 := snd (predict c s (input_data i)) in
        let s2 := match predict_proba c with
                  | Some g => snd (g s1 (input_data i)) | None => s1 end in
        analyze c i s =
        (Ok tt, s2,
         progress_events
         ++ Encode (input_data i) :: Predict (input_data i)
         :: (if asks_proba c (input_data i) s then [PredictProba (input_data i)] else [])
         ++ trace_of (render l conf s2))).
Proof.
  set (x := input_data i). unfold asks_proba. fold x.
  destruct (predict c s x) as [[[ | l rest] | e] s1] eqn:P; cbn [fst snd].
  - left. exists IndexError. split; [reflexivity | ].
    apply analyze_without_label. rewrite classify_run. fold x. rewrite P. reflexivity.
  - right. destruct (confidence_of_total c x s1) as [conf C].
    exists l, conf. cbv zeta.
    pose proof (infer_run _ _ _ _ _ _ _ _ _ P C) as I.
    rewrite (analyze_run _ _ _ _ _ _ _ I). fold x.
    destruct (predict_proba c); reflexivity.
  - left. exists e. split; [reflexivity | ].
    apply analyze_without_label. rewrite classify_run. fold x. rewrite P. reflexivity.
Qed.

Lemma render_no_inference {St} (l : label) (conf : pynum) (st : St) :
  filter is_inference (trace_of (render l conf st)) = [].
Proof.
  rewrite render_run. unfold trace_of. cbn [snd].
  destruct (l =? 1)%Z; destruct (gt0 conf); reflexivity.
Qed.

(** X1. In every run of the prediction section the feature row is built
    once, [predict] is called exactly once on it, and [predict_proba] is
    called at most once, after [predict] and on the same row: exactly
    when [predict] returned a label and the class has the method. *)
Theorem inference_call_order c i s :
  filter is_inference (trace_of (analyze c i s)) =
  Encode (input_data i) :: Predict (input_data i)
  :: (if asks_proba c (input_data i) s then [PredictProba (input_data i)] else []).
Proof.
  destruct (analyze_cases c i s) as [[e [A ->]] | [l [conf E]]].
  - rewrite A. unfold trace_of. cbn [snd].
    rewrite filter_app, progress_no_inference. reflexivity.
  - cbv zeta in E. rewrite E. unfold trace_of at 1. cbn [snd].
    rewrite filter_app, progress_no_inference.
    cbn [app filter is_inference]. f_equal. f_equal.
    rewrite filter_app, render_no_inference, app_nil_r.
    destruct (asks_proba c (input_data i) s); reflexivity.
Qed.

(** The cosmetic loop: the values 0, 1, ..., 100 in this order. *)
Lemma progress_events_shown_values :
  shown progress_events = map Progress (map Z.of_nat (seq 0 101)) ++ [ProgressEmpty].
Proof. reflexivity. Qed.

Lemma progress_events_in_range : Forall percent_in_range progress_events.
Proof.
  unfold progress_events. constructor; [cbn; lia | ].
  apply Forall_app. split; [ | repeat constructor].
  apply Forall_forall. intros ev Hin. apply in_map_iff in Hin.
  destruct Hin as [k [<- Hk]]. apply in_seq in Hk. cbn. lia.
Qed.

(** X11. The progress bar runs to its end before the feature row is
    built, whatever the classifier does afterwards; it is given the values
    0, 1, ..., 100 in this order and is then emptied, so every value is
    within the range [st.progress] accepts. *)
Theorem progress_bar_completes c i s :
  (exists rest, trace_of (analyze c i s) = progress_events ++ Encode (input_data i) :: rest)
  /\ only percent_in_range (analyze c i s)
  /\ shown progress_events
     = map Progress (map Z.of_nat (seq 0 101)) ++ [ProgressEmpty].
Proof.
  split; [ | split; [ | exact progress_events_shown_values]].
  - destruct (analyze_cases c i s) as [[e [_ ->]] | [l [conf E]]].
    + eexists. reflexivity.
    + cbv zeta in E. rewrite E. eexists. reflexivity.
  - unfold only.
    destruct (analyze_cases c i s) as [[e [_ ->]] | [l [conf E]]].
    + unfold trace_of. cbn [snd]. apply Forall_app.
      split; [exact progress_events_in_range | repeat constructor].
    + cbv zeta in E. rewrite E. unfold trace_of at 1. cbn [snd].
      apply Forall_app. split; [exact progress_events_in_range | ].
      constructor; [exact I | ]. constructor; [exact I | ].
      apply Forall_app. split.
      * destruct (asks_proba c (input_data i) s); repeat constructor.
      * rewrite render_run. unfold trace_of. cbn [snd].
        destruct (l =? 1)%Z; destruct (gt0 conf); repeat constructor.
Qed.

(** A stateless classifier leaves the object as it was. *)
Lemma analyze_stateless c i s : stateless c -> state_of (analyze c i s) = s.
Proof.
  intros [Hp Hq].
  assert (S1 : snd (predict c s (input_data i)) = s) by apply Hp.
  destruct (analyze_cases c i s) as [[e [_ ->]] | [l [conf E]]].
  - exact S1.
  - cbv zeta in E. rewrite E. unfold state_of. cbn [fst snd].
    destruct (predict_proba c) as [g | ] eqn:G; [ | exact S1].
    rewrite (Hq g eq_refl). exact S1.
Qed.

Lemma store_same p o els :
  cache p = Some (Some o, els) -> store (self o) p = p.
Proof.
  destruct p as [ca]. cbn. intros ->. destruct o. reflexivity.
Qed.

Lemma script_stateless fs ses p o els :
  cache p = Some (Some o, els) -> stateless (cls o) ->
  state_of (script fs ses p) = p.
Proof.
  intros C St.
  rewrite (script_loaded fs ses p o p (map Show els) (load_model_hit _ _ _ _ C)).
  destruct (truthy (cls o)); [ | reflexivity].
  destruct (clicked ses); [ | reflexivity].
  unfold state_of at 1. cbn [fst snd].
  rewrite (analyze_stateless _ _ _ St). apply store_same with (1 := C).
Qed.

Lemma serve_stateless reqs p o els :
  cache p = Some (Some o, els) -> stateless (cls o) ->
  fst (serve reqs p) = p.
Proof.
  intros C St. induction reqs as [ | [fs ses] rest IH]; [reflexivity | ].
  cbn [serve]. rewrite (script_stateless fs ses p o els C St).
  destruct (serve rest p) as [p' t']. exact IH.
Qed.

(** X6. With a cached model whose two methods leave the object unchanged,
    a run leaves the process as it found it; so the same session is
    served alike, result and page, however many requests were served in
    between and whatever the file has become. *)
Theorem stateless_requests_are_independent fs ses p o els
    (C : cache p = Some (Some o, els))
    (Hs : stateless (cls o)) :
  state_of (script fs ses p) = p
  /\ forall reqs fs', script fs' ses (fst (serve reqs p)) = script fs ses p.
Proof.
  split; [exact (script_stateless fs ses p o els C Hs) | ].
  intros reqs fs'. rewrite (serve_stateless reqs p o els C Hs).
  rewrite (script_loaded fs' ses p o p (map Show els) (load_model_hit _ _ _ _ C)).
  rewrite (script_loaded fs ses p o p (map Show els) (load_model_hit _ _ _ _ C)).
  reflexivity.
Qed.

(** A run on an artifact the loader cannot read. *)
Lemma script_load_failure fs ses e :
  load_failure fs = Some e ->
  script fs ses fresh =
  (Raise e, fresh,
   page_top ++ Open model_path
   :: match fs with Corrupt _ => [Unpickle] | _ => [] end).
Proof.
  intros H.
  assert (L : load_model fs fresh =
              (Raise e, fresh,
               Open model_path :: match fs with Corrupt _ => [Unpickle] | _ => [] end)).
  { rewrite load_model_miss by reflexivity. rewrite load_model_body_run.
    destruct fs as [ | e' | e' | o]; cbn in H; try discriminate;
      destruct (is_FileNotFoundError e'); try discriminate;
      injection H as ->; reflexivity. }
  unfold script, bind, show, emit. rewrite L. reflexivity.
Qed.

(** X5. A load that raises is not remembered. After any number of
    requests on an artifact the loader cannot read, the cache is still
    empty, every one of these runs has opened the file again, and the
    next load of a good artifact reads it and returns the model. *)
Theorem failed_load_is_retried (reqs : list (artifact Internal * session)) o
    (H : Forall (fun r => load_failure (fst r) <> None) reqs) :
  fst (serve reqs fresh) = fresh
  /\ List.length (filter is_open (snd (serve reqs fresh))) = List.length reqs
  /\ load_model (Pickled o) (fst (serve reqs fresh)) =
     (Ok (Some o), {| cache := Some (Some o, []) |}, [Open model_path; Unpickle]).
Proof.
  assert (A : fst (serve reqs fresh) = fresh
              /\ List.length (filter is_open (snd (serve reqs fresh))) = List.length reqs).
  { induction H as [ | [fs ses] rest Hr Hrest IH]; [split; reflexivity | ].
    cbn [fst] in Hr. destruct (load_failure fs) as [e | ] eqn:E; [ | congruence].
    cbn [serve]. rewrite (script_load_failure fs ses e E).
    unfold state_of, trace_of. cbn [fst snd].
    destruct (serve rest fresh) as [p' t']. cbn [fst snd] in *.
    destruct IH as [IH1 IH2]. split; [exact IH1 | ].
    rewrite !filter_app, !length_app, IH2.
    destruct fs; reflexivity. }
  destruct A as [A1 A2]. split; [exact A1 | ]. split; [exact A2 | ].
  rewrite A1. reflexivity.
Qed.

End RunsFurther.

Section ConfidenceFurther.

Context {Internal : Type}.
Implicit Types (c : classifier Internal) (x : features) (s : Internal).

Lemma maximum_nan_l (b : float) : maximum S754_nan b = S754_nan.
Proof. reflexivity. Qed.

Lemma maximum_nan_r (a : float) : maximum a S754_nan = S754_nan.
Proof. destruct a as [[] | [] | | [] ? ?]; reflexivity. Qed.

Lemma fold_maximum_from_nan (ys : list float) : fold_left maximum ys S754_nan = S754_nan.
Proof. induction ys as [ | z ys IH]; [reflexivity | exact IH]. Qed.

(** One NaN among the entries makes the whole reduction NaN. *)
Lemma fold_maximum_has_nan (ys : list float) : forall y,
  existsb is_nan (y :: ys) = true -> fold_left maximum ys y = S754_nan.
Proof.
  induction ys as [ | z ys IH]; intros y H; cbn [existsb] in H.
  - rewrite orb_false_r in H. destruct y; try discriminate. reflexivity.
  - destruct (is_nan y) eqn:Ey.
    + destruct y; try discriminate. apply fold_maximum_from_nan.
    + cbn [orb] in H. cbn [fold_left]. apply IH. cbn [existsb].
      destruct (is_nan z) eqn:Ez.
      * destruct z; try discriminate. rewrite maximum_nan_r. reflexivity.
      * cbn [orb] in H. rewrite H. apply orb_true_r.
Qed.

(** X10. A NaN among the returned probabilities makes the maximum, and
    so the confidence, NaN; the comparison [confidence > 0] is then false
    and the card is shown without a confidence line. *)
Theorem nan_probability_hides_confidence c x s s' g (a : ndarray)
    (Hg : predict_proba c = Some g)
    (Hr : g s x = (Ok a, s'))
    (Hn : existsb is_nan (List.concat a) = true) :
  confidence_of c x s = (Ok (PyFloat S754_nan), s', [PredictProba x])
  /\ forall (l : label) (st : Internal),
       shown (trace_of (render l (PyFloat S754_nan) st)) = Rule :: card l.
Proof.
  assert (Hm : np_max a = Ok S754_nan).
  { unfold np_max. destruct (List.concat a) as [ | y ys]; [discriminate | ].
    rewrite (fold_maximum_has_nan ys y Hn). reflexivity. }
  split.
  - exact (confidence_of_success _ _ _ _ _ _ _ Hg Hr Hm).
  - intros l st. rewrite shown_render. cbn. f_equal. apply app_nil_r.
Qed.

Lemma fmul_zero_100 (z : bool) : fmul (S754_zero z) f100 = S754_zero z.
Proof. destruct z; reflexivity. Qed.

(** The confidence of a distribution, by the shape of its maximum. *)
Lemma confidence_cases (m : float) :
  probability m ->
  ((exists z, m = S754_zero z) /\ gt0 (PyFloat (fmul m f100)) = false)
  \/ (flt f0 m = true
      /\ gt0 (PyFloat (fmul m f100)) = true
      /\ exists h, 0 <= h <= 10000
           /\ format_2f (PyFloat (fmul m f100)) = fixed2 false h).
Proof.
  intros Pm. destruct (probability_shape m Pm) as [[z ->] | [mm [e [-> [Hb Hle]]]]].
  - left. split; [exists z; reflexivity | ]. rewrite fmul_zero_100. reflexivity.
  - right. split; [reflexivity | ].
    destruct (fmul_100_shape mm e Hb Hle) as [m2 [e2 [-> [B1 B2]]]].
    split; [reflexivity | ].
    exists (hundredths m2 e2). split; [ | reflexivity].
    apply hundredths_at_most_100; assumption.
Qed.

(** X9. For a returned distribution the confidence line is shown exactly
    when some entry is greater than 0: a positive maximum times 100 never
    rounds to zero, and an all-zero array gives confidence 0. *)
Theorem confidence_line_iff_positive_entry c x s s' g (a : ndarray)
    (Hg : predict_proba c = Some g)
    (Hr : g s x = (Ok a, s'))
    (Hd : distribution a) :
  exists conf,
    confidence_of c x s = (Ok conf, s', [PredictProba x])
    /\ gt0 conf = existsb (flt f0) (List.concat a)
    /\ forall (l : label) (st : Internal),
         existsb is_confidence_line (shown (trace_of (render l conf st)))
         = existsb (flt f0) (List.concat a).
Proof.
  destruct (np_max_distribution a Hd) as [m [Hm [Pm [Im Lm]]]].
  exists (PyFloat (fmul m f100)).
  split; [exact (confidence_of_success _ _ _ _ _ _ _ Hg Hr Hm) | ].
  assert (G : gt0 (PyFloat (fmul m f100)) = existsb (flt f0) (List.concat a)).
  { destruct Hd as [_ Fd].
    destruct (confidence_cases m Pm) as [[[z ->] G] | [Fm [G _]]]; rewrite G; symmetry.
    - apply not_true_is_false. intros E. apply existsb_exists in E.
      destruct E as [y [Iy Fy]].
      rewrite Forall_forall in Lm, Fd. specialize (Lm y Iy). specialize (Fd y Iy).
      destruct (probability_shape y Fd) as [[zy ->] | [my [ey [-> _]]]];
        [destruct zy | ]; discriminate.
    - apply existsb_exists. exists m. split; assumption. }
  split; [exact G | ].
  intros l st. rewrite shown_render, <- G. unfold card.
  destruct (l =? 1)%Z; destruct (gt0 (PyFloat (fmul m f100))); reflexivity.
Qed.

Lemma string_app_assoc (u v w : string) :
  ((u ++ v) ++ w = u ++ (v ++ w))%string.
Proof.
  induction u as [ | ch u IH]; [reflexivity | ].
  cbn [String.append]. rewrite IH. reflexivity.
Qed.

(** X8. For a returned distribution the confidence line, when shown,
    reads a number of hundredths between 0 and 10000, printed with
    exactly two decimals: never more than 100.00%. *)
Theorem confidence_line_at_most_100 c x s s' g (a : ndarray)
    (Hg : predict_proba c = Some g)
    (Hr : g s x = (Ok a, s'))
    (Hd : distribution a) :
  exists conf h,
    confidence_of c x s = (Ok conf, s', [PredictProba x])
    /\ 0 <= h <= 10000
    /\ String.length (two_digits (h mod 100)) = 2%nat
    /\ forall (l : label) (st : Internal),
         shown (trace_of (render l conf st)) =
         Rule :: card l
         ++ (if gt0 conf
             then [StWrite ("**Model Confidence:** " ++ dec (h / 100) ++ "."
                            ++ two_digits (h mod 100) ++ "%")%string]
             else []).
Proof.
  destruct (np_max_distribution a Hd) as [m [Hm [Pm [Im Lm]]]].
  exists (PyFloat (fmul m f100)).
  pose proof (confidence_of_success _ _ _ _ _ _ _ Hg Hr Hm) as C.
  destruct (confidence_cases m Pm) as [[_ G] | [_ [G [h [Hh F]]]]].
  - exists 0. split; [exact C | ]. split; [lia | ]. split; [reflexivity | ].
    intros l st. rewrite shown_render, G. reflexivity.
  - exists h. split; [exact C | ]. split; [exact Hh | ].
    split; [apply two_digits_length; apply Z.mod_pos_bound; lia | ].
    intros l st. rewrite shown_render, G. unfold confidence_text. rewrite F.
    unfold fixed2. rewrite !string_app_assoc. reflexivity.
Qed.

End ConfidenceFurther.

Section Sharing.

Context {Internal : Type}.
Implicit Types (p : process Internal) (fs : artifact Internal) (ses : session)
  (o : object Internal).

(** X7. The cached model is one shared object. In a run with the button
    pressed the script's result is that of the prediction section, the
    state the classifier's methods left the object in is what the cache
    holds afterwards, and the next pressed run starts from that state. *)
Theorem object_mutations_persist fs ses p o els
    (C : cache p = Some (Some o, els))
    (T : truthy (cls o) = true)
    (B : clicked ses = true) :
  let r := analyze (cls o) (fields ses) (self o) in
  let p' := state_of (script fs ses p) in
  result_of (script fs ses p) = result_of r
  /\ cache p' = Some (Some {| cls := cls o; self := state_of r |}, els)
  /\ forall fs' ses', clicked ses' = true ->
       trace_of (script fs' ses' p') =
       page_top ++ map Show els ++ page_head ++ map Show form_elements
       ++ trace_of (analyze (cls o) (fields ses') (state_of r)).
Proof.
  cbv zeta.
  rewrite (script_loaded fs ses p o p (map Show els) (load_model_hit _ _ _ _ C)), T, B.
  set (r := analyze (cls o) (fields ses) (self o)).
  change (result_of (result_of r, store (state_of r) p,
                     page_top ++ map Show els ++ page_head ++ map Show form_elements
                     ++ trace_of r)) with (result_of r).
  change (state_of (result_of r, store (state_of r) p,
                    page_top ++ map Show els ++ page_head ++ map Show form_elements
                    ++ trace_of r)) with (store (state_of r) p).
  assert (C' : cache (store (state_of r) p)
               = Some (Some {| cls := cls o; self := state_of r |}, els)).
  { unfold store. rewrite C. reflexivity. }
  split; [reflexivity | ]. split; [exact C' | ].
  intros fs' ses' B'.
  rewrite (script_loaded fs' ses' _ _ _ _ (load_model_hit _ _ _ fs' C')).
  cbn [cls self]. rewrite T, B'. reflexivity.
Qed.

End Sharing.

Lemma object_mutations_persist_witness :
  let o := {| cls := Scenario.healthy; self := 0%nat |} in
  let p : process nat := {| cache := Some (Some o, []) |} in
  let ses := {| fields := Scenario.scenario_A; clicked := true |} in
  let r := analyze (cls o) (fields ses) (self o) in
  let p' := state_of (script Absent ses p) in
  result_of (script Absent ses p) = result_of r
  /\ cache p' = Some (Some {| cls := cls o; self := state_of r |}, [])
  /\ forall fs' ses', clicked ses' = true ->
       trace_of (script fs' ses' p') =
       page_top ++ map Show [] ++ page_head ++ map Show form_elements
       ++ trace_of (analyze (cls o) (fields ses') (state_of r)).
Proof.
  apply (object_mutations_persist Absent
           {| fields := Scenario.scenario_A; clicked := true |}
           {| cache := Some (Some {| cls := Scenario.healthy; self := 0%nat |}, []) |}
           {| cls := Scenario.healthy; self := 0%nat |} []);
    reflexivity.
Defined.

Lemma falsy_model_waits_witness :
  script (Pickled {| cls := Cases.falsy; self := 0%nat |}) Cases.pressed fresh =
    (Ok tt, {| cache := Some (Some {| cls := Cases.falsy; self := 0%nat |}, []) |},
     page_top ++ [Open model_path; Unpickle] ++ page_head ++ [Show awaiting])
  /\ silent is_inference
       (script (Pickled {| cls := Cases.falsy; self := 0%nat |}) Cases.pressed fresh).
Proof.
  apply (falsy_model_waits (Pickled {| cls := Cases.falsy; self := 0%nat |})
           Cases.pressed fresh {| cls := Cases.falsy; self := 0%nat |}
           {| cache := Some (Some {| cls := Cases.falsy; self := 0%nat |}, []) |}
           [Open model_path; Unpickle]);
    reflexivity.
Defined.

Lemma no_click_no_inference_witness :
  script (Pickled {| cls := Cases.steady; self := 0%nat |}) Cases.idle fresh =
    (Ok tt, {| cache := Some (Some {| cls := Cases.steady; self := 0%nat |}, []) |},
     page_top ++ [Open model_path; Unpickle] ++ page_head ++ map Show form_elements)
  /\ silent is_inference
       (script (Pickled {| cls := Cases.steady; self := 0%nat |}) Cases.idle fresh)
  /\ cached {| cache := Some (Some {| cls := Cases.steady; self := 0%nat |}, []) |}
     = Some (Some Cases.steady).
Proof.
  apply (no_click_no_inference (Pickled {| cls := Cases.steady; self := 0%nat |})
           Cases.idle fresh {| cls := Cases.steady; self := 0%nat |}
           {| cache := Some (Some {| cls := Cases.steady; self := 0%nat |}, []) |}
           [Open model_path; Unpickle]);
    reflexivity.
Defined.

Lemma predict_failure_ends_run_witness :
  script (Pickled {| cls := Cases.failing_predict; self := 0%nat |}) Cases.pressed fresh =
    (Raise ValueError,
     store 1%nat {| cache := Some (Some {| cls := Cases.failing_predict; self := 0%nat |}, []) |},
     page_top ++ [Open model_path; Unpickle] ++ page_head ++ map Show form_elements
     ++ progress_events
     ++ [Encode (input_data (fields Cases.pressed));
         Predict (input_data (fields Cases.pressed))]).
Proof.
  apply (predict_failure_ends_run
           (Pickled {| cls := Cases.failing_predict; self := 0%nat |})
           Cases.pressed fresh {| cls := Cases.failing_predict; self := 0%nat |}
           {| cache := Some (Some {| cls := Cases.failing_predict; self := 0%nat |}, []) |}
           [Open model_path; Unpickle] ValueError 1%nat);
    try reflexivity.
  left. reflexivity.
Defined.

Lemma stateless_requests_are_independent_witness :
  let o := {| cls := Cases.steady; self := 0%nat |} in
  let p : process nat := {| cache := Some (Some o, []) |} in
  state_of (script Absent Cases.pressed p) = p
  /\ forall reqs fs',
       script fs' Cases.pressed (fst (serve reqs p)) = script Absent Cases.pressed p.
Proof.
  apply (stateless_requests_are_independent Absent Cases.pressed
           {| cache := Some (Some {| cls := Cases.steady; self := 0%nat |}, []) |}
           {| cls := Cases.steady; self := 0%nat |} []).
  - reflexivity.
  - split.
    + intros s x. reflexivity.
    + intros g E s x. injection E as <-. reflexivity.
Defined.

Lemma failed_load_is_retried_witness :
  let reqs : list (artifact nat * session) :=
    [(Corrupt UnpicklingError, Cases.pressed); (Unopenable PermissionError, Cases.idle)] in
  let o := {| cls := Scenario.healthy; self := 0%nat |} in
  fst (serve reqs fresh) = fresh
  /\ List.length (filter is_open (snd (serve reqs fresh))) = List.length reqs
  /\ load_model (Pickled o) (fst (serve reqs fresh)) =
     (Ok (Some o), {| cache := Some (Some o, []) |}, [Open model_path; Unpickle]).
Proof.
  apply (failed_load_is_retried
           [(Corrupt UnpicklingError, Cases.pressed);
            (Unopenable PermissionError, Cases.idle)]
           {| cls := Scenario.healthy; self := 0%nat |}).
  repeat constructor; discriminate.
Defined.

Lemma nan_probability_hides_confidence_witness :
  let x := input_data Scenario.scenario_B in
  confidence_of Cases.nan_proba x 0%nat = (Ok (PyFloat S754_nan), 0%nat, [PredictProba x])
  /\ forall (l : label) (st : nat),
       shown (trace_of (render l (PyFloat S754_nan) st)) = Rule :: card l.
Proof.
  apply (nan_probability_hides_confidence Cases.nan_proba
           (input_data Scenario.scenario_B) 0%nat 0%nat
           (fun s _ => (Ok [[Scenario.p_0_125; S754_nan]], s))
           [[Scenario.p_0_125; S754_nan]]);
    reflexivity.
Defined.

Lemma steady_distribution :
  distribution [[Scenario.p_0_125; Scenario.p_0_875]].
Proof.
  split; [discriminate | ]. repeat constructor; vm_compute; reflexivity.
Defined.

Lemma confidence_line_iff_positive_entry_witness :
  let x := input_data Scenario.scenario_B in
  let a := [[Scenario.p_0_125; Scenario.p_0_875]] in
  exists conf,
    confidence_of Cases.steady x 0%nat = (Ok conf, 0%nat, [PredictProba x])
    /\ gt0 conf = existsb (flt f0) (List.concat a)
    /\ forall (l : label) (st : nat),
         existsb is_confidence_line (shown (trace_of (render l conf st)))
         = existsb (flt f0) (List.concat a).
Proof.
  apply (confidence_line_iff_positive_entry Cases.steady
           (input_data Scenario.scenario_B) 0%nat 0%nat
           (fun s _ => (Ok [[Scenario.p_0_125; Scenario.p_0_875]], s))
           [[Scenario.p_0_125; Scenario.p_0_875]]);
    [reflexivity | reflexivity | exact steady_distribution].
Defined.

Lemma confidence_line_at_most_100_witness :
  let x := input_data Scenario.scenario_B in
  exists conf h,
    confidence_of Cases.steady x 0%nat = (Ok conf, 0%nat, [PredictProba x])
    /\ 0 <= h <= 10000
    /\ String.length (two_digits (h mod 100)) = 2%nat
    /\ forall (l : label) (st : nat),
         shown (trace_of (render l conf st)) =
         Rule :: card l
         ++ (if gt0 conf
             then [StWrite ("**Model Confidence:** " ++ dec (h / 100) ++ "."
                            ++ two_digits (h mod 100) ++ "%")%string]
             else []).
Proof.
  apply (confidence_line_at_most_100 Cases.steady
           (input_data Scenario.scenario_B) 0%nat 0%nat
           (fun s _ => (Ok [[Scenario.p_0_125; Scenario.p_0_875]], s))
           [[Scenario.p_0_125; Scenario.p_0_875]]);
    [reflexivity | reflexivity | exact steady_distribution].
Defined.
